(** * YouTube-Notification: the notifier of [src/server.js]

    A shallow embedding of the class [YouTubeNotifier]: its constructor,
    [subscribe], [unsubscribe], [_makeRequest] and the request handlers
    [_onRequest], [_onGetRequest] and [_onPostRequest].

    The calls the class makes on its collaborators -- [post] of axios,
    the methods of the Express response [res], and [emit] of the
    [EventEmitter] it extends -- are recorded, in order, as a trace of
    effects; a JavaScript exception ends the run and keeps the trace
    recorded so far.  A query value is a string or, for a repeated
    key, an array of strings.  Of [setup] and [server.js] the model keeps
    the path mounted and the port listened on; [listener] is
    [_onRequest]. *)

From Stdlib Require Import Ascii String.
From stdpp Require Import base numbers option list strings gmap.

Local Open Scope string_scope.
Set Warnings "-register-all".

(** ** JavaScript values and strings *)

(** The values a body parser puts in [req.body]: strings, arrays and
    objects, and [undefined] for what is not there.  An object lists its
    own properties in insertion order. *)
Inductive jsval : Type :=
| JUndef
| JStr (s : string)
| JArr (l : list jsval)
| JObj (props : list (string * jsval)).

(** What a run can throw: [new Error(msg)] of the source; the
    [TypeError] the language raises when a property of [undefined] is read
    or a value that is not a function is called, and Node's [end] when it
    is given what is neither a string nor a buffer; and the error
    ([ERR_UNHANDLED_ERROR]) that [emit] throws for an "error" event
    nobody listens to. *)
Inductive exn : Type :=
| Error (msg : string)
| TypeError
| UnhandledError.

(** A value of the parsed query, as [querystring] gives it: a string, or
    an array of strings for a key that occurs more than once. *)
Inductive qval : Type :=
| QStr (s : string)
| QArr (l : list string).

Coercion QStr : string >-> qval.

(** JavaScript truthiness, on the three kinds of value the class tests. *)
Definition truthy_str (s : string) : bool :=
  match s with
  | "" => false
  | _ => true
  end.

Definition truthy_opt (o : option string) : bool :=
  match o with
  | Some s => truthy_str s
  | None => false
  end.

Definition truthy (v : jsval) : bool :=
  match v with
  | JUndef => false
  | JStr s => truthy_str s
  | JArr _ | JObj _ => true
  end.

Definition truthy_qval (v : qval) : bool :=
  match v with
  | QStr s => truthy_str s
  | QArr _ => true
  end.

Definition truthy_q (o : option qval) : bool :=
  match o with
  | Some v => truthy_qval v
  | None => false
  end.

(** [a || b] on an optional string with a string default. *)
Definition or_default (o : option string) (d : string) : string :=
  match o with
  | Some s => if truthy_str s then s else d
  | None => d
  end.

(** [String.prototype.toLowerCase] on the code units below 256, which is
    where the header values it is applied to live (Node decodes header
    bytes as Latin-1): A-Z, and the capital letters from 192 to 222 but
    for the multiplication sign 215, move up by 32. *)
Definition lower_ascii (c : ascii) : ascii :=
  let n := nat_of_ascii c in
  if ((65 <=? n) && (n <=? 90)
      || (192 <=? n) && (n <=? 222) && negb (n =? 215))%nat
  then ascii_of_nat (n + 32)
  else c.

Fixpoint toLowerCase (s : string) : string :=
  match s with
  | "" => ""
  | String c r => String (lower_ascii c) (toLowerCase r)
  end.

(** [s.split('=')] for the one-character separator: never empty. *)
Fixpoint split_on (sep : ascii) (s : string) : list string :=
  match s with
  | "" => [""]
  | String c r =>
      if Ascii.eqb c sep then "" :: split_on sep r
      else match split_on sep r with
           | x :: xs => String c x :: xs
           | [] => [String c ""]
           end
  end.

(** [drop_prefix p s] is what follows [p] when [s] starts with [p]. *)
Fixpoint drop_prefix (p s : string) : option string :=
  match p, s with
  | "", _ => Some s
  | String a p', String b s' =>
      if Ascii.eqb a b then drop_prefix p' s' else None
  | String _ _, "" => None
  end.

(** [s.replace(pat, rep)] with a string pattern: the first occurrence of
    [pat] only, and [s] unchanged when there is none.  ([rep] is the empty
    string in the source, so no replacement pattern is involved.) *)
Fixpoint replace_first (pat rep s : string) : string :=
  match drop_prefix pat s with
  | Some rest => rep +:+ rest
  | None =>
      match s with
      | "" => ""
      | String c r => String c (replace_first pat rep r)
      end
  end.

(** ** Form encoding: [querystring.stringify] *)

Definition hex_digit (n : nat) : ascii :=
  ascii_of_nat (if (n <? 10)%nat then 48 + n else 55 + n).

(** The characters [querystring.escape] leaves alone:
    A-Z a-z 0-9 - _ . ! ~ * ' ( ) *)
Definition qs_unreserved (c : ascii) : bool :=
  let n := nat_of_ascii c in
  ((65 <=? n) && (n <=? 90) || (97 <=? n) && (n <=? 122)
   || (48 <=? n) && (n <=? 57)
   || (n =? 45) || (n =? 95) || (n =? 46) || (n =? 33) || (n =? 126)
   || (n =? 42) || (n =? 39) || (n =? 40) || (n =? 41))%nat.

(** Strings stand for their UTF-8 bytes here, so every byte that is not
    left alone becomes one [%XX]. *)
Fixpoint qs_escape (s : string) : string :=
  match s with
  | "" => ""
  | String c r =>
      if qs_unreserved c then String c (qs_escape r)
      else let n := nat_of_ascii c in
           String "%"%char (String (hex_digit (n / 16))
                         (String (hex_digit (n mod 16)) (qs_escape r)))
  end.

Fixpoint join_with (sep : string) (l : list string) : string :=
  match l with
  | [] => ""
  | [x] => x
  | x :: xs => x +:+ sep +:+ join_with sep xs
  end.

Definition qs_stringify (data : list (string * string)) : string :=
  join_with "&" (map (fun kv => qs_escape kv.1 +:+ "=" +:+ qs_escape kv.2) data).

(** ** Effects *)

(** The argument of the events emitted on a verified GET callback. *)
Record intent_data : Type := IntentData {
  type : qval;
  channel : string;
  lease_seconds : option qval
}.

(** The argument of the ["notified"] event: every field is the value the
    handler read from the entry, whatever it is. *)
Record video_data : Type := VideoData {
  video_id : jsval;
  video_title : jsval;
  video_link : jsval
}.

Record channel_data : Type := ChannelData {
  channel_id : jsval;
  channel_name : jsval;
  channel_link : jsval
}.

Record notified_data : Type := NotifiedData {
  video : video_data;
  channel_of : channel_data;
  published : jsval;
  updated : jsval
}.

Inductive payload : Type :=
| Intent (d : intent_data)
| Notified (d : notified_data).

Inductive effect : Type :=
| Post (url body : string) (headers : list (string * string))
    (* post(url, body, { headers }) *)
| SendStatus (code : Z)
    (* res.sendStatus(code) *)
| StatusEnd (code : Z) (content_type : string) (body : option string)
    (* res.status(code).set('Content-Type', content_type).end(body) *)
| Emit (name : qval) (data : payload).
    (* this.emit(name, data) *)

(** A run: the effects performed, in order, and how it ended. *)
Record comp (A : Type) : Type := Comp {
  effects : list effect;
  outcome : exn + A
}.
Arguments Comp {A} _ _.
Arguments effects {A} _.
Arguments outcome {A} _.

Definition throw {A : Type} (e : exn) : comp A := Comp [] (inl e).
Definition perform (e : effect) : comp unit := Comp [e] (inr ()).

#[export] Instance comp_ret : MRet comp := fun A a => Comp [] (inr a).
#[export] Instance comp_bind : MBind comp := fun A B k m =>
  match outcome m with
  | inl e => Comp (effects m) (inl e)
  | inr a => Comp (effects m ++ effects (k a)) (outcome (k a))
  end.

(** [l.forEach(f)] *)
Fixpoint forEach {A : Type} (f : A -> comp unit) (l : list A) : comp unit :=
  match l with
  | [] => mret ()
  | x :: xs => f x ;; forEach f xs
  end.

(** The HTTP status a response effect carries. *)
Definition status_of (e : effect) : option Z :=
  match e with
  | SendStatus c | StatusEnd c _ _ => Some c
  | _ => None
  end.

Definition is_emit (e : effect) : bool :=
  match e with
  | Emit _ _ => true
  | _ => false
  end.

(** The events of a run, and its responses. *)
Definition emitted {A : Type} (m : comp A) : list effect :=
  filter (fun e => is_emit e = true) (effects m).

Definition responses {A : Type} (m : comp A) : list Z :=
  omap status_of (effects m).

(** ** The notifier *)

Definition base_topic : string :=
  "https://www.youtube.com/xml/feeds/videos.xml?channel_id=".

Record NotifierOptions : Type := {
  opt_hubCallback : option string;
  opt_secret : option string;
  opt_middleware : bool;
  opt_port : option Z;
  opt_path : option string;
  opt_hubUrl : option string
}.

(** The fields of the instance, and of the state of the [EventEmitter]
    it is what [emit] itself depends on: whether the host has registered
    a listener for the event "error" ([on('error', ...)]).  A fresh
    notifier has none. *)
Record YouTubeNotifier : Type := {
  hubCallback : string;
  hubUrl : string;
  secret : option string;
  middleware : bool;
  port : Z;
  path : string;
  error_listener : bool
}.

Definition constructor (options : NotifierOptions) : exn + YouTubeNotifier :=
  if negb (truthy_opt (opt_hubCallback options))
  then inl (Error "You need to provide the callback URL.")
  else inr {|
    hubCallback := default "" (opt_hubCallback options);
    hubUrl := or_default (opt_hubUrl options) "https://pubsubhubbub.appspot.com/";
    secret := opt_secret options;
    middleware := opt_middleware options;
    port := match opt_port options with
            | Some p => if (p =? 0)%Z then 3000%Z else p
            | None => 3000%Z
            end;
    path := or_default (opt_path options) "/";
    error_listener := false
  |}.

(** ** Subscribing and unsubscribing *)

(** The argument of [subscribe] and [unsubscribe]: nothing, a string, an
    array of channel ids, or any other value, of which only the truthiness
    is looked at. *)
Inductive channels_arg : Type :=
| ChUndefined
| ChString (s : string)
| ChArray (l : list string)
| ChOther (is_truthy : bool).

Definition channels_truthy (c : channels_arg) : bool :=
  match c with
  | ChUndefined => false
  | ChString s => truthy_str s
  | ChArray _ => true
  | ChOther b => b
  end.

Definition is_string (c : channels_arg) : bool :=
  match c with
  | ChString _ => true
  | _ => false
  end.

Definition is_array (c : channels_arg) : bool :=
  match c with
  | ChArray _ => true
  | _ => false
  end.

Definition channels_error : exn :=
  Error "You need to provide a channel id or an array of channel ids.".

(** The object [data] of [_makeRequest], as its list of properties. *)
Definition request_data (self : YouTubeNotifier) (channel_id type : string)
  : list (string * string) :=
  let topic := base_topic +:+ channel_id in
  let data := [("hub.callback", hubCallback self);
               ("hub.mode", type);
               ("hub.topic", topic)] in
  match secret self with
  | Some s => if truthy_str s then data ++ [("hub.secret", s)] else data
  | None => data
  end.

Definition form_headers : list (string * string) :=
  [("Content-Type", "application/x-www-form-urlencoded")].

Definition _makeRequest (self : YouTubeNotifier) (channel_id type : string)
  : comp unit :=
  perform (Post (hubUrl self)
                (qs_stringify (request_data self channel_id type))
                form_headers).

Definition subscribe (self : YouTubeNotifier) (channels : channels_arg)
  : comp unit :=
  if negb (channels_truthy channels)
     || (negb (is_string channels) && negb (is_array channels))
  then throw channels_error
  else match channels with
       | ChString s => _makeRequest self s "subscribe"
       | ChArray l => forEach (fun channel => _makeRequest self channel "subscribe") l
       | _ => throw TypeError
       end.

(** In the string branch the source calls [this.makeRequest], a property
    neither the class nor [EventEmitter] defines: the call raises a
    [TypeError]. *)
Definition unsubscribe (self : YouTubeNotifier) (channels : channels_arg)
  : comp unit :=
  if negb (channels_truthy channels)
     || (negb (is_string channels) && negb (is_array channels))
  then throw channels_error
  else match channels with
       | ChString s => throw TypeError
       | ChArray l => forEach (fun channel => _makeRequest self channel "unsubscribe") l
       | _ => throw TypeError
       end.


(** ** Reading the parsed body *)

(** The own property [k] of an object, [undefined] when it has none. *)
Definition lookup_prop (k : string) (props : list (string * jsval)) : jsval :=
  match find (fun kv => String.eqb kv.1 k) props with
  | Some kv => kv.2
  | None => JUndef
  end.

(** [v[k]] or [v.k] for a name [k]: reading a property of [undefined]
    raises [TypeError]; strings and arrays have none of the names read
    here.  (Inherited properties are left out.  Of the names the handler
    reads only [link] is inherited anywhere, by strings, as a function;
    the handler reads it from the entry after [yt:videoid], and on a string
    that earlier read has already raised the [TypeError].) *)
Definition get (v : jsval) (k : string) : comp jsval :=
  match v with
  | JUndef => throw TypeError
  | JStr _ | JArr _ => mret JUndef
  | JObj props => mret (lookup_prop k props)
  end.

(** [v[0]] *)
Definition first (v : jsval) : comp jsval :=
  match v with
  | JUndef => throw TypeError
  | JStr "" => mret JUndef
  | JStr (String c _) => mret (JStr (String c ""))
  | JArr [] => mret JUndef
  | JArr (x :: _) => mret x
  | JObj props => mret (lookup_prop "0" props)
  end.

(** ** The request handlers *)

(** What the handlers read of [req]: the method, the parsed query of the
    URL, the headers, the parsed body and the raw body the XML body parser
    keeps beside it. *)
Record request : Type := {
  method : string;
  query : gmap string qval;
  headers : gmap string string;
  body : jsval;
  rawBody : string
}.

(** [crypto.createHmac(algo, key)]: [None] when the provider rejects the
    algorithm name (the call throws), otherwise the keyed hash, from the
    data given to [update] to the result of [digest('hex')]. *)
Definition hmac_provider : Type := string -> string -> option (string -> string).

(** [this.emit(name, data)].  The call is recorded; for the name "error"
    with no listener for it, [emit] then throws.  Listeners are the
    host's code and are taken to return. *)
Definition emit (self : YouTubeNotifier) (name : qval) (data : payload)
  : comp unit :=
  perform (Emit name data);;
  match name with
  | QStr s =>
      if String.eqb s "error" && negb (error_listener self)
      then throw UnhandledError
      else mret ()
  | QArr _ => mret ()
  end.

(** [res.status(code).set('Content-Type', content_type).end(v)] for a
    value [v] of the query: [end] sends a string, sends nothing for
    [undefined], and throws a [TypeError] ([ERR_INVALID_ARG_TYPE]) for an
    array, in which case no response goes out. *)
Definition status_end (code : Z) (content_type : string) (v : option qval)
  : comp unit :=
  match v with
  | None => perform (StatusEnd code content_type None)
  | Some (QStr s) => perform (StatusEnd code content_type (Some s))
  | Some (QArr _) => throw TypeError
  end.

Definition _onGetRequest (self : YouTubeNotifier) (req : request) : comp unit :=
  let params := query req in
  if negb (truthy_q (params !! "hub.topic"))
     || negb (truthy_q (params !! "hub.mode"))
  then perform (StatusEnd 400 "text/plain" (Some "Bad Request"))
  else
    status_end 200 "text/plain" (params !! "hub.challenge");;
    match params !! "hub.mode", params !! "hub.topic" with
    | Some mode, Some (QStr topic) =>
        let data := {| type := mode;
                       channel := replace_first base_topic "" topic;
                       lease_seconds := None |} in
        let data :=
          if truthy_q (params !! "hub.lease_seconds")
          then {| type := type data;
                  channel := channel data;
                  lease_seconds := params !! "hub.lease_seconds" |}
          else data in
        emit self mode (Intent data)
    | _, _ => throw TypeError
    end.

(** The object literal [data] of [_onPostRequest]: eight reads, in source
    order, each of which can raise. *)
Definition extract (entry : jsval) : comp notified_data :=
  id ← get entry "yt:videoid" ≫= first;
  title ← get entry "title" ≫= first;
  link ← get entry "link" ≫= first;
  attrs ← get link "$";
  href ← get attrs "href";
  cid ← get entry "yt:channelid" ≫= first;
  author ← get entry "author" ≫= first;
  name ← get author "name" ≫= first;
  author' ← get entry "author" ≫= first;
  uri ← get author' "uri" ≫= first;
  published ← get entry "published" ≫= first;
  updated ← get entry "updated" ≫= first;
  mret {| video := {| video_id := id; video_title := title; video_link := href |};
          channel_of := {| channel_id := cid; channel_name := name; channel_link := uri |};
          published := published;
          updated := updated |}.

Definition notify (self : YouTubeNotifier) (entry : jsval) : comp unit :=
  data ← extract entry;
  emit self "notified" (Notified data);;
  perform (SendStatus 200).

(** The two parts of the signature header the handler keeps: what
    [split('=')] gives first ([shift]) and, of what is left, last ([pop]);
    each replaced by the empty string when it is missing or empty, then
    lower-cased. *)
Definition header_algo (header : string) : string :=
  let signatureParts := split_on "=" header in
  toLowerCase (or_default (head signatureParts) "").

Definition header_signature (header : string) : string :=
  let signatureParts := tail (split_on "=" header) in
  toLowerCase (or_default (last signatureParts) "").

(** The block under [// Match Secret], followed by the rest of the
    handler when the signature matches. *)
Definition match_secret (createHmac : hmac_provider) (key : string)
    (req : request) (rest : comp unit) : comp unit :=
  match headers req !! "x-hub-signature" with
  | None => throw TypeError
  | Some header =>
      let algo := header_algo header in
      let signature := header_signature header in
      match createHmac algo key with
      | None => perform (SendStatus 403)
      | Some hmac =>
          if negb (String.eqb (toLowerCase (hmac (rawBody req))) signature)
          then perform (SendStatus 200)
          else rest
      end
  end.

Definition _onPostRequest (createHmac : hmac_provider)
    (self : YouTubeNotifier) (req : request) : comp unit :=
  if truthy_opt (secret self)
     && negb (truthy_opt (headers req !! "x-hub-signature"))
  then perform (SendStatus 403)
  else
    feed ← get (body req) "feed";
    deleted ← get feed "at:deleted-entry";
    if truthy deleted then perform (SendStatus 200)
    else
      entries ← get feed "entry";
      if negb (truthy entries)
      then perform (StatusEnd 400 "text/plain" (Some "Bad Request"))
      else
        entry ← first entries;
        if truthy_opt (secret self)
        then match_secret createHmac (default "" (secret self)) req (notify self entry)
        else notify self entry.

Definition _onRequest (createHmac : hmac_provider)
    (self : YouTubeNotifier) (req : request) : comp unit :=
  if String.eqb (method req) "GET" then _onGetRequest self req
  else if String.eqb (method req) "POST" then _onPostRequest createHmac self req
  else perform (SendStatus 403).

(** [listener()] hands every request to [_onRequest]. *)
Definition listener := _onRequest.

(** ** Reading the handlers' tests *)

(** The handlers test for a missing value with [!x]: the value is absent
    or is the empty string. *)
Definition lacks (params : gmap string qval) (k : string) : bool :=
  negb (truthy_q (params !! k)).

(** The key occurs more than once in the query. *)
Definition repeated (o : option qval) : bool :=
  match o with
  | Some (QArr _) => true
  | _ => false
  end.

(** The value of a key that occurs once, [undefined] otherwise. *)
Definition str_of (o : option qval) : option string :=
  match o with
  | Some (QStr s) => Some s
  | _ => None
  end.

(** The event is "error" and nobody listens to it. *)
Definition unheard (self : YouTubeNotifier) (name : qval) : bool :=
  match name with
  | QStr s => String.eqb s "error" && negb (error_listener self)
  | QArr _ => false
  end.

(** [v[k]] where it does not raise. *)
Definition prop (v : jsval) (k : string) : jsval :=
  match v with
  | JObj props => lookup_prop k props
  | _ => JUndef
  end.

(** [v[0]] where it does not raise. *)
Definition first_of (v : jsval) : jsval :=
  match v with
  | JStr (String c _) => JStr (String c "")
  | JArr (x :: _) => x
  | JObj props => lookup_prop "0" props
  | _ => JUndef
  end.

Definition feed_of (req : request) : jsval := prop (body req) "feed".
Definition deleted_entry_of (req : request) : jsval := prop (feed_of req) "at:deleted-entry".
Definition entries_of (req : request) : jsval := prop (feed_of req) "entry".
Definition entry_of (req : request) : jsval := first_of (entries_of req).

Definition signature_header (req : request) : option string :=
  headers req !! "x-hub-signature".

(** The first test of [_onPostRequest]: a secret is configured and the
    request has no signature header. *)
Definition header_missing (self : YouTubeNotifier) (req : request) : bool :=
  truthy_opt (secret self) && negb (truthy_opt (signature_header req)).

(** The signature check lets the request through: no secret is
    configured, or the provider knows the header's algorithm and the
    digest of the raw body is the header's signature. *)
Definition signature_ok (createHmac : hmac_provider)
    (self : YouTubeNotifier) (req : request) : bool :=
  match secret self with
  | Some key =>
      if truthy_str key then
        match signature_header req with
        | Some header =>
            truthy_str header &&
            match createHmac (header_algo header) key with
            | Some hmac =>
                String.eqb (toLowerCase (hmac (rawBody req))) (header_signature header)
            | None => false
            end
        | None => false
        end
      else true
  | None => true
  end.

(** The request reaches the extraction under [let data = ...]. *)
Definition passes_checks (createHmac : hmac_provider)
    (self : YouTubeNotifier) (req : request) : bool :=
  negb (truthy (deleted_entry_of req))
  && truthy (entries_of req)
  && signature_ok createHmac self req.

(** A run without effects that raises the [TypeError] or yields a
    value, as the reads of the extraction do. *)
Definition pure {A : Type} (m : comp A) : Prop :=
  m = throw TypeError ∨ ∃ a, m = mret a.

(** The elements of the entry the handler reads. *)
Definition entry_elements : list string :=
  ["yt:videoid"; "title"; "link"; "yt:channelid"; "author"; "published"; "updated"].

(** ** Sample inputs *)

Definition sample_options (s : option string) : NotifierOptions := {|
  opt_hubCallback := Some "http://example.com/cb";
  opt_secret := s;
  opt_middleware := false;
  opt_port := None;
  opt_path := None;
  opt_hubUrl := None
|}.

Definition notifier_of (s : option string) : YouTubeNotifier := {|
  hubCallback := "http://example.com/cb";
  hubUrl := "https://pubsubhubbub.appspot.com/";
  secret := s;
  middleware := false;
  port := 3000;
  path := "/";
  error_listener := false
|}.

(** A stand-in provider: it knows ["sha1"] only, and its digest is a fixed
    hex string. *)
Definition toy_createHmac : hmac_provider := fun algo key =>
  if String.eqb algo "sha1" then Some (fun data => "c0ffee") else None.

(** The query of a list of decoded pairs, as [querystring.parse] collects
    it: the first value of a key is kept as a string, a second one makes
    an array of the two, and later ones are added to the array. *)
Definition add_param (q : gmap string qval) (kv : string * string)
  : gmap string qval :=
  match q !! kv.1 with
  | None => <[kv.1 := QStr kv.2]> q
  | Some (QStr s) => <[kv.1 := QArr [s; kv.2]]> q
  | Some (QArr l) => <[kv.1 := QArr (l ++ [kv.2])%list]> q
  end.

Definition collect (params : list (string * string)) : gmap string qval :=
  fold_left add_param params ∅.

Definition get_request (params : list (string * string)) : request := {|
  method := "GET";
  query := collect params;
  headers := ∅;
  body := JUndef;
  rawBody := ""
|}.

Definition verify_subscribe : request :=
  get_request [("hub.mode", "subscribe");
               ("hub.topic", base_topic +:+ "UC123");
               ("hub.challenge", "abc")].

(** A callback whose mode is neither "subscribe" nor "unsubscribe". *)
Definition verify_banana : request :=
  get_request [("hub.mode", "banana");
               ("hub.topic", base_topic +:+ "UC123")].

(** An "unsubscribe" callback that carries a lease. *)
Definition verify_unsubscribe_lease : request :=
  get_request [("hub.mode", "unsubscribe");
               ("hub.topic", base_topic +:+ "UC123");
               ("hub.challenge", "abc");
               ("hub.lease_seconds", "432000")].

(** [notifier.on('error', listener)], as far as [emit] is concerned. *)
Definition on_error (self : YouTubeNotifier) : YouTubeNotifier := {|
  hubCallback := hubCallback self;
  hubUrl := hubUrl self;
  secret := secret self;
  middleware := middleware self;
  port := port self;
  path := path self;
  error_listener := true
|}.

(** Callbacks that repeat a key, and one whose mode is "error". *)
Definition verify_repeated_challenge : request :=
  get_request [("hub.mode", "subscribe");
               ("hub.topic", base_topic +:+ "UC123");
               ("hub.challenge", "a");
               ("hub.challenge", "b")].

Definition verify_repeated_topic : request :=
  get_request [("hub.mode", "subscribe");
               ("hub.topic", "a");
               ("hub.topic", "b");
               ("hub.challenge", "abc")].

Definition verify_error : request :=
  get_request [("hub.mode", "error");
               ("hub.topic", base_topic +:+ "UC123");
               ("hub.challenge", "abc")].

Definition post_request (signature : option string) (raw : string)
    (parsed : jsval) : request := {|
  method := "POST";
  query := ∅;
  headers := match signature with
             | Some h => {[ "x-hub-signature" := h ]}
             | None => ∅
             end;
  body := parsed;
  rawBody := raw
|}.

Definition sample_entry : jsval :=
  JObj [("id", JArr [JStr "yt:video:VID1"]);
        ("yt:videoid", JArr [JStr "VID1"]);
        ("yt:channelid", JArr [JStr "UC123"]);
        ("title", JArr [JStr "A video"]);
        ("link", JArr [JObj [("$", JObj [("rel", JStr "alternate");
                                         ("href", JStr "https://www.youtube.com/watch?v=VID1")])]]);
        ("author", JArr [JObj [("name", JArr [JStr "A channel"]);
                               ("uri", JArr [JStr "https://www.youtube.com/channel/UC123"])]]);
        ("published", JArr [JStr "2015-03-06T21:40:57+00:00"]);
        ("updated", JArr [JStr "2015-03-09T19:05:24+00:00"])].

(** The same entry with a [<link>] that has no [href] attribute. *)
Definition entry_without_href : jsval :=
  JObj [("yt:videoid", JArr [JStr "VID1"]);
        ("yt:channelid", JArr [JStr "UC123"]);
        ("title", JArr [JStr "A video"]);
        ("link", JArr [JObj [("$", JObj [("rel", JStr "alternate")])]]);
        ("author", JArr [JObj [("name", JArr [JStr "A channel"]);
                               ("uri", JArr [JStr "https://www.youtube.com/channel/UC123"])]]);
        ("published", JArr [JStr "2015-03-06T21:40:57+00:00"]);
        ("updated", JArr [JStr "2015-03-09T19:05:24+00:00"])].

(** An entry with a title and nothing else. *)
Definition entry_title_only : jsval :=
  JObj [("title", JArr [JStr "A video"])].

Definition feed_with (entries : list jsval) : jsval :=
  JObj [("feed", JObj [("title", JArr [JStr "YouTube video feed"]);
                       ("entry", JArr entries)])].

Definition feed_without_entry : jsval :=
  JObj [("feed", JObj [("title", JArr [JStr "YouTube video feed"])])].

Definition feed_deleted : jsval :=
  JObj [("feed", JObj [("at:deleted-entry",
                        JArr [JObj [("$", JObj [("ref", JStr "yt:video:VID1")])]])])].

(** Deliveries to a notifier whose secret is "s3cret". *)
Definition keyed : YouTubeNotifier := notifier_of (Some "s3cret").

Definition raw_feed : string := "<feed><entry/></feed>".

(** A signature under an algorithm the provider does not know. *)
Definition post_unknown_algorithm : request :=
  post_request (Some "md99=c0ffee") raw_feed (feed_with [sample_entry]).

(** A signature that is not the digest of the body. *)
Definition post_mismatch : request :=
  post_request (Some "sha1=0badf00d") raw_feed (feed_with [sample_entry]).

(** The same signature on a feed without an entry. *)
Definition post_mismatch_no_entry : request :=
  post_request (Some "sha1=0badf00d") raw_feed feed_without_entry.

(** A deletion, with and without a signature header. *)
Definition post_deleted_unsigned : request :=
  post_request None raw_feed feed_deleted.

Definition post_deleted_signed : request :=
  post_request (Some "sha1=0badf00d") raw_feed feed_deleted.

(** Unsigned deliveries with an incomplete entry. *)
Definition post_title_only : request :=
  post_request None raw_feed (feed_with [entry_title_only]).

Definition post_without_href : request :=
  post_request None raw_feed (feed_with [entry_without_href]).

(** ** The standalone server *)

(** What [setup] does to the Express application of [server.js]:
    [app.use(path, listener)] mounts the handler, [listen(port)] binds. *)
Inductive server_action : Type :=
| Use (mount : string)
| Listen (on_port : Z).

Definition server (notifier : YouTubeNotifier) : list server_action :=
  [Use (path notifier)].

Definition setup (self : YouTubeNotifier) : exn + list server_action :=
  if middleware self
  then inl (Error "You cannot setup a server if you are using middleware.")
  else inr ((server self ++ [Listen (port self)])%list).

(** ** Reading strings *)

(** The character [c] is somewhere in [s]. *)
Fixpoint has_char (c : ascii) (s : string) : bool :=
  match s with
  | "" => false
  | String a r => Ascii.eqb a c || has_char c r
  end.

(** The value of a hexadecimal digit as [hex_digit] writes it. *)
Definition unhex (c : ascii) : nat :=
  let n := nat_of_ascii c in
  if (n <? 58)%nat then n - 48 else n - 55.

(** What [querystring.escape] makes of one character. *)
Definition qs_escape_char (c : ascii) : string :=
  if qs_unreserved c then String c ""
  else let n := nat_of_ascii c in
       String "%"%char (String (hex_digit (n / 16)) (String (hex_digit (n mod 16)) "")).

(** The fields of a form body, encoded, before they are joined. *)
Definition qs_field (kv : string * string) : string :=
  qs_escape kv.1 +:+ "=" +:+ qs_escape kv.2.

(** A form body read as the hub reads it: cut at [&] into fields, each
    cut at [=]. *)
Definition form_fields (body : string) : list (list string) :=
  map (split_on "=") (split_on "&" body).

(** The form body has the field [k] with the value [v]: one of its
    fields is the encoding of [k], [=], and the encoding of [v]. *)
Definition form_field (body k v : string) : Prop :=
  In [qs_escape k; qs_escape v] (form_fields body).

(** The form body has a field [k], whatever its value. *)
Definition form_key (body k : string) : Prop :=
  ∃ x, In [qs_escape k; x] (form_fields body).

(** The request [req] with [header] for signature header. *)
Definition with_signature (header : string) (req : request) : request := {|
  method := method req;
  query := query req;
  headers := <["x-hub-signature" := header]> (headers req);
  body := body req;
  rawBody := rawBody req
|}.

(** An entry as the XML body parser gives it for the feed of YouTube:
    every element in an array, the link as a bag of attributes. *)
Definition atom_entry (id title href cid name uri pub upd : string) : jsval :=
  JObj [("id", JArr [JStr ("yt:video:" +:+ id)]);
        ("yt:videoid", JArr [JStr id]);
        ("yt:channelid", JArr [JStr cid]);
        ("title", JArr [JStr title]);
        ("link", JArr [JObj [("$", JObj [("rel", JStr "alternate"); ("href", JStr href)])]]);
        ("author", JArr [JObj [("name", JArr [JStr name]); ("uri", JArr [JStr uri])]]);
        ("published", JArr [JStr pub]);
        ("updated", JArr [JStr upd])].

(** ** Reading an entry *)

Definition defined (v : jsval) : bool :=
  match v with
  | JUndef => false
  | _ => true
  end.

(** [entry.link[0]] and [entry.author[0]] where they do not raise. *)
Definition link_of (entry : jsval) : jsval := first_of (prop entry "link").
Definition author_of (entry : jsval) : jsval := first_of (prop entry "author").

(** Each of the eight reads of the extraction finds something to read
    its last property from. *)
Definition readable (entry : jsval) : bool :=
  defined (prop entry "yt:videoid")
  && defined (prop entry "title")
  && defined (prop (link_of entry) "$")
  && defined (prop entry "yt:channelid")
  && defined (prop (author_of entry) "name")
  && defined (prop (author_of entry) "uri")
  && defined (prop entry "published")
  && defined (prop entry "updated").

(** The values the eight reads find. *)
Definition event_of (entry : jsval) : notified_data := {|
  video := {| video_id := first_of (prop entry "yt:videoid");
              video_title := first_of (prop entry "title");
              video_link := prop (prop (link_of entry) "$") "href" |};
  channel_of := {| channel_id := first_of (prop entry "yt:channelid");
                   channel_name := first_of (prop (author_of entry) "name");
                   channel_link := first_of (prop (author_of entry) "uri") |};
  published := first_of (prop entry "published");
  updated := first_of (prop entry "updated")
|}.

(** A delivery of two entries signed with the digest of the provider, and
    a POST whose body is not a feed. *)
Definition post_two_entries : request :=
  post_request (Some "SHA1=C0FFEE") raw_feed
    (feed_with [atom_entry "VID1" "A video" "https://www.youtube.com/watch?v=VID1"
                  "UC123" "A channel" "https://www.youtube.com/channel/UC123"
                  "2015-03-06T21:40:57+00:00" "2015-03-09T19:05:24+00:00";
                entry_title_only]).

Definition post_not_a_feed : request :=
  post_request None "{}" (JObj []).

(** * Properties *)

(** ** Runs *)

Lemma bind_throw {A B : Type} (e : exn) (k : A -> comp B) :
  throw e ≫= k = throw e.
Proof. reflexivity. Qed.

Lemma bind_ret {A B : Type} (a : A) (k : A -> comp B) :
  mret a ≫= k = k a.
Proof. unfold mbind, comp_bind, mret, comp_ret; simpl. by destruct (k a). Qed.

Lemma bind_perform {B : Type} (e : effect) (k : unit -> comp B) :
  perform e ≫= k = Comp (e :: effects (k ())) (outcome (k ())).
Proof. reflexivity. Qed.

Lemma forEach_nil {A : Type} (f : A -> comp unit) : forEach f [] = mret ().
Proof. reflexivity. Qed.

Lemma forEach_singleton {A : Type} (f : A -> comp unit) (x : A) :
  forEach f [x] = f x.
Proof.
  simpl. unfold mbind, comp_bind. destruct (f x) as [t [e|[]]]; simpl; [done|].
  by rewrite app_nil_r.
Qed.

(** A run of [forEach] performs the effects of each call in turn, as long
    as no call throws. *)
Lemma forEach_effects {A : Type} (f : A -> comp unit) (l : list A) :
  (∀ x, outcome (f x) = inr ()) →
  effects (forEach f l) = concat (map (fun x => effects (f x)) l)
  ∧ outcome (forEach f l) = inr ().
Proof.
  intros Hf. induction l as [|x xs [IHe IHo]]; [done|].
  simpl. unfold mbind, comp_bind. rewrite Hf. simpl. by rewrite IHe, IHo.
Qed.

(** ** Subscription requests *)

Module Subscription.

Example stringify_sample :
  qs_stringify [("hub.mode", "subscribe"); ("hub.topic", base_topic +:+ "UC123")]
  = "hub.mode=subscribe&hub.topic=https%3A%2F%2Fwww.youtube.com%2Fxml%2Ffeeds%2Fvideos.xml%3Fchannel_id%3DUC123".
Proof. reflexivity. Qed.

(** [if (this.secret)] takes an empty secret for no secret. *)
Example empty_secret_sample :
  request_data (notifier_of (Some "")) "UC123" "subscribe"
  = request_data (notifier_of None) "UC123" "subscribe".
Proof. reflexivity. Qed.

Example constructor_sample :
  constructor (sample_options (Some "s3cret")) = inr (notifier_of (Some "s3cret")).
Proof. reflexivity. Qed.

Lemma request_data_no_secret (self : YouTubeNotifier) (c i : string) :
  truthy_opt (secret self) = false →
  request_data self c i =
    [("hub.callback", hubCallback self); ("hub.mode", i); ("hub.topic", base_topic +:+ c)].
Proof.
  unfold request_data. destruct (secret self) as [s|]; simpl; [|done].
  by intros ->.
Qed.

Lemma request_data_secret (self : YouTubeNotifier) (c i s : string) :
  secret self = Some s → truthy_str s = true →
  request_data self c i =
    [("hub.callback", hubCallback self); ("hub.mode", i); ("hub.topic", base_topic +:+ c);
     ("hub.secret", s)].
Proof. unfold request_data. by intros -> ->. Qed.

(** C1.  Given one non-empty channel id as a string, [unsubscribe] fires
    no request at all: the call of [this.makeRequest] raises a
    [TypeError].  Given the same id in a one-element array it fires the
    one request with mode "unsubscribe" and the id's topic, and
    [subscribe] treats the string and the one-element array alike. *)
Theorem unsubscribe_string_fires_nothing (self : YouTubeNotifier) (c : string) :
  truthy_str c = true →
  unsubscribe self (ChString c) = Comp [] (inl TypeError)
  ∧ unsubscribe self (ChArray [c]) =
      Comp [Post (hubUrl self) (qs_stringify (request_data self c "unsubscribe"))
              form_headers] (inr ())
  ∧ subscribe self (ChString c) = subscribe self (ChArray [c]).
Proof.
  intros Hc. unfold unsubscribe, subscribe.
  cbn [channels_truthy is_string is_array]. rewrite Hc.
  cbn [negb orb andb]. by rewrite !forEach_singleton.
Qed.

Lemma unsubscribe_string_fires_nothing_witness :
  truthy_str "UC123" = true
  ∧ unsubscribe (notifier_of None) (ChString "UC123") = Comp [] (inl TypeError)
  ∧ unsubscribe (notifier_of None) (ChArray ["UC123"]) =
      Comp [Post "https://pubsubhubbub.appspot.com/"
              (qs_stringify (request_data (notifier_of None) "UC123" "unsubscribe"))
              form_headers] (inr ())
  ∧ subscribe (notifier_of None) (ChString "UC123")
    = subscribe (notifier_of None) (ChArray ["UC123"]).
Proof.
  split; [reflexivity|].
  apply (unsubscribe_string_fires_nothing (notifier_of None) "UC123"); reflexivity.
Defined.

(** C9, as the code has it.  [subscribe] and [unsubscribe] throw the
    argument error, having fired nothing, exactly when the argument is
    absent, is the empty string, or is neither a string nor an array.
    The empty array is accepted: the call returns without an error and
    fires no request. *)
Theorem argument_error_iff (self : YouTubeNotifier) (channels : channels_arg) :
  (subscribe self channels = Comp [] (inl channels_error)
   ↔ channels = ChUndefined ∨ channels = ChString "" ∨ ∃ b, channels = ChOther b)
  ∧ (unsubscribe self channels = Comp [] (inl channels_error)
     ↔ channels = ChUndefined ∨ channels = ChString "" ∨ ∃ b, channels = ChOther b)
  ∧ subscribe self (ChArray []) = Comp [] (inr ())
  ∧ unsubscribe self (ChArray []) = Comp [] (inr ()).
Proof.
  split; [|split; [|done]].
  - split.
    + destruct channels as [|s|l|b]; eauto.
      * destruct s; [eauto|]. intros H; discriminate H.
      * unfold subscribe; simpl. intros H.
        destruct (forEach_effects (fun channel => _makeRequest self channel "subscribe") l)
          as [_ Ho]; [done|].
        rewrite H in Ho. discriminate Ho.
    + intros [->|[->|[b ->]]]; try done. by destruct b.
  - split.
    + destruct channels as [|s|l|b]; eauto.
      * destruct s; [eauto|]. intros H; discriminate H.
      * unfold unsubscribe; simpl. intros H.
        destruct (forEach_effects (fun channel => _makeRequest self channel "unsubscribe") l)
          as [_ Ho]; [done|].
        rewrite H in Ho. discriminate Ho.
    + intros [->|[->|[b ->]]]; try done. by destruct b.
Qed.

(** C9 as stated fails on the empty array, the "empty collection": neither
    method throws. *)
Lemma empty_array_no_error :
  ¬ (outcome (subscribe (notifier_of None) (ChArray [])) = inl channels_error)
  ∧ ¬ (outcome (unsubscribe (notifier_of None) (ChArray [])) = inl channels_error).
Proof. split; intros H; discriminate H. Qed.

End Subscription.

(** ** Intent verification: GET *)

Module Verification.

Lemma truthy_opt_Some (o : option string) :
  truthy_opt o = true → ∃ s, o = Some s ∧ truthy_str s = true.
Proof. destruct o as [s|]; [eauto | done]. Qed.

Lemma truthy_q_Some (o : option qval) :
  truthy_q o = true → ∃ v, o = Some v ∧ truthy_qval v = true.
Proof. destruct o as [v|]; [eauto | done]. Qed.

Lemma status_end_single (code : Z) (content_type : string) (o : option qval) :
  repeated o = false →
  status_end code content_type o = perform (StatusEnd code content_type (str_of o)).
Proof. by destruct o as [[s|l]|]. Qed.

Lemma status_end_repeated (code : Z) (content_type : string) (o : option qval) :
  repeated o = true → status_end code content_type o = throw TypeError.
Proof. by destruct o as [[s|l]|]. Qed.

Lemma emit_run (self : YouTubeNotifier) (name : qval) (data : payload) :
  emit self name data =
    Comp [Emit name data] (if unheard self name then inl UnhandledError else inr ()).
Proof.
  unfold emit, unheard. destruct name as [s|l]; [|done].
  by destruct (String.eqb s "error" && negb (error_listener self)).
Qed.

(** A GET request whose [hub.topic] is one non-empty string, whose
    [hub.mode] passes the handler's test and whose [hub.challenge] is
    not repeated is answered 200 with the challenge, and then [emit] is
    called once, with the mode for name. *)
Lemma onGetRequest_verified (self : YouTubeNotifier) (req : request)
    (topic : string) (mode : qval) :
  query req !! "hub.topic" = Some (QStr topic) → truthy_str topic = true →
  query req !! "hub.mode" = Some mode → truthy_qval mode = true →
  repeated (query req !! "hub.challenge") = false →
  _onGetRequest self req =
    Comp [StatusEnd 200 "text/plain" (str_of (query req !! "hub.challenge"));
          Emit mode (Intent {|
            type := mode;
            channel := replace_first base_topic "" topic;
            lease_seconds :=
              if truthy_q (query req !! "hub.lease_seconds")
              then query req !! "hub.lease_seconds" else None |})]
         (if unheard self mode then inl UnhandledError else inr ()).
Proof.
  intros Ht Htt Hm Hmt Hc. unfold _onGetRequest.
  rewrite Ht, Hm. simpl. rewrite Htt, Hmt. simpl.
  rewrite (status_end_single _ _ _ Hc), bind_perform, emit_run.
  by destruct (truthy_q (query req !! "hub.lease_seconds")).
Qed.

(** With a repeated [hub.topic] the 200 is sent and [replace], which an
    array has not, raises: nothing is emitted. *)
Lemma onGetRequest_repeated_topic (self : YouTubeNotifier) (req : request)
    (topics : list string) :
  query req !! "hub.topic" = Some (QArr topics) →
  truthy_q (query req !! "hub.mode") = true →
  repeated (query req !! "hub.challenge") = false →
  _onGetRequest self req =
    Comp [StatusEnd 200 "text/plain" (str_of (query req !! "hub.challenge"))]
         (inl TypeError).
Proof.
  intros Ht Hm Hc. unfold _onGetRequest. rewrite Ht, Hm. simpl.
  rewrite (status_end_single _ _ _ Hc), bind_perform.
  by destruct (query req !! "hub.mode").
Qed.

Lemma onGetRequest_repeated_challenge (self : YouTubeNotifier) (req : request) :
  lacks (query req) "hub.topic" || lacks (query req) "hub.mode" = false →
  repeated (query req !! "hub.challenge") = true →
  _onGetRequest self req = Comp [] (inl TypeError).
Proof.
  unfold lacks, _onGetRequest. intros -> Hc.
  by rewrite (status_end_repeated _ _ _ Hc).
Qed.

(** C5, as the code has it.  A GET request whose query lacks [hub.topic]
    or [hub.mode] (the handler's test [!params[k]]) is answered 400 with
    the plain-text body "Bad Request" and nothing is emitted.  Any other
    GET request whose query has [hub.challenge] at most once is answered
    200 with, as body, the value of [hub.challenge] as it is in the
    query, and what is emitted follows that response.  When the query
    repeats [hub.challenge], [end] is given an array and raises: no
    response goes out and nothing is emitted. *)
Theorem get_handshake (createHmac : hmac_provider) (self : YouTubeNotifier)
    (req : request) :
  method req = "GET" →
  (lacks (query req) "hub.topic" || lacks (query req) "hub.mode" = true →
     _onRequest createHmac self req =
       Comp [StatusEnd 400 "text/plain" (Some "Bad Request")] (inr ()))
  ∧ (lacks (query req) "hub.topic" || lacks (query req) "hub.mode" = false →
     repeated (query req !! "hub.challenge") = false →
     ∃ rest,
       effects (_onRequest createHmac self req) =
         StatusEnd 200 "text/plain" (str_of (query req !! "hub.challenge")) :: rest
       ∧ (rest = [] ∨ ∃ name data, rest = [Emit name data]))
  ∧ (lacks (query req) "hub.topic" || lacks (query req) "hub.mode" = false →
     repeated (query req !! "hub.challenge") = true →
     _onRequest createHmac self req = Comp [] (inl TypeError)).
Proof.
  intros Hget. unfold _onRequest. rewrite Hget. simpl.
  split; [|split].
  - unfold lacks, _onGetRequest. by intros ->.
  - unfold lacks. intros Hl Hc. apply orb_false_elim in Hl as [Ht Hm].
    apply negb_false_iff in Ht, Hm.
    destruct (truthy_q_Some _ Ht) as ([topic|topics] & Ht' & Htt).
    + destruct (truthy_q_Some _ Hm) as (mode & Hm' & Hmt).
      rewrite (onGetRequest_verified self req topic mode Ht' Htt Hm' Hmt Hc).
      eexists. split; [reflexivity|]. right. eauto.
    + rewrite (onGetRequest_repeated_topic self req topics Ht' Hm Hc).
      eexists. split; [reflexivity|]. by left.
  - apply onGetRequest_repeated_challenge.
Qed.

Lemma get_handshake_witness :
  (method verify_subscribe = "GET"
   ∧ lacks (query verify_subscribe) "hub.topic"
     || lacks (query verify_subscribe) "hub.mode" = false
   ∧ repeated (query verify_subscribe !! "hub.challenge") = false)
  ∧ ∃ rest,
      effects (_onRequest toy_createHmac (notifier_of None) verify_subscribe) =
        StatusEnd 200 "text/plain" (Some "abc") :: rest
      ∧ (rest = [] ∨ ∃ name data, rest = [Emit name data]).
Proof.
  split; [repeat split; reflexivity|].
  apply (get_handshake toy_createHmac (notifier_of None) verify_subscribe);
    reflexivity.
Defined.

(** C5 as stated fails when the query repeats [hub.challenge]: [end] is
    given an array and raises, so the request is not answered 200. *)
Lemma get_repeated_challenge_no_response :
  ¬ (lacks (query verify_repeated_challenge) "hub.topic"
     || lacks (query verify_repeated_challenge) "hub.mode" = false →
     responses (_onRequest toy_createHmac (notifier_of None) verify_repeated_challenge)
     = [200%Z]).
Proof. intros H. specialize (H eq_refl). discriminate H. Qed.

(** The end-to-end example of the specification. *)
Example get_subscribe_sample :
  _onRequest toy_createHmac (notifier_of None) verify_subscribe
  = Comp [StatusEnd 200 "text/plain" (Some "abc");
          Emit "subscribe" (Intent {| type := "subscribe"; channel := "UC123";
                                      lease_seconds := None |})] (inr ()).
Proof. reflexivity. Qed.

(** The handler's test takes an empty value for a missing one. *)
Example get_empty_topic_sample :
  _onRequest toy_createHmac (notifier_of None)
    (get_request [("hub.mode", "subscribe"); ("hub.topic", "")])
  = Comp [StatusEnd 400 "text/plain" (Some "Bad Request")] (inr ()).
Proof. reflexivity. Qed.

(** A repeated key, and the mode "error" with nobody listening. *)
Example get_repeated_samples :
  query verify_repeated_topic !! "hub.topic" = Some (QArr ["a"; "b"])
  ∧ _onRequest toy_createHmac (notifier_of None) verify_repeated_topic
    = Comp [StatusEnd 200 "text/plain" (Some "abc")] (inl TypeError)
  ∧ _onRequest toy_createHmac (notifier_of None) verify_repeated_challenge
    = Comp [] (inl TypeError)
  ∧ _onRequest toy_createHmac (notifier_of None) verify_error
    = Comp [StatusEnd 200 "text/plain" (Some "abc");
            Emit "error" (Intent {| type := "error"; channel := "UC123";
                                    lease_seconds := None |})]
           (inl UnhandledError)
  ∧ outcome (_onRequest toy_createHmac (on_error (notifier_of None)) verify_error)
    = inr ().
Proof. repeat split; reflexivity. Qed.




(** C6.  The handler copies [hub.lease_seconds] into the event whenever
    the query has it, without looking at the mode: a verified
    "unsubscribe" callback that carries a lease yields an "unsubscribe"
    event with a [lease_seconds] field. *)
Theorem unsubscribe_event_carries_lease (createHmac : hmac_provider)
    (self : YouTubeNotifier) (req : request) (topic lease : string) :
  method req = "GET" →
  query req !! "hub.topic" = Some (QStr topic) → truthy_str topic = true →
  query req !! "hub.mode" = Some (QStr "unsubscribe") →
  query req !! "hub.lease_seconds" = Some (QStr lease) → truthy_str lease = true →
  repeated (query req !! "hub.challenge") = false →
  emitted (_onRequest createHmac self req) =
    [Emit "unsubscribe" (Intent {| type := "unsubscribe";
                                   channel := replace_first base_topic "" topic;
                                   lease_seconds := Some (QStr lease) |})].
Proof.
  intros Hget Ht Htt Hm Hl Hlt Hc. unfold _onRequest. rewrite Hget. simpl.
  rewrite (onGetRequest_verified self req topic "unsubscribe" Ht Htt Hm eq_refl Hc).
  rewrite Hl. simpl. rewrite Hlt. reflexivity.
Qed.

Lemma unsubscribe_event_carries_lease_witness :
  (method verify_unsubscribe_lease = "GET"
   ∧ query verify_unsubscribe_lease !! "hub.topic"
     = Some (QStr (base_topic +:+ "UC123"))
   ∧ query verify_unsubscribe_lease !! "hub.mode" = Some (QStr "unsubscribe")
   ∧ query verify_unsubscribe_lease !! "hub.lease_seconds" = Some (QStr "432000")
   ∧ repeated (query verify_unsubscribe_lease !! "hub.challenge") = false)
  ∧ emitted (_onRequest toy_createHmac (notifier_of None) verify_unsubscribe_lease) =
      [Emit "unsubscribe" (Intent {| type := "unsubscribe"; channel := "UC123";
                                     lease_seconds := Some (QStr "432000") |})].
Proof.
  split; [repeat split; reflexivity|].
  apply (unsubscribe_event_carries_lease toy_createHmac (notifier_of None)
           verify_unsubscribe_lease (base_topic +:+ "UC123") "432000"); reflexivity.
Defined.

End Verification.

(** ** Notification delivery: POST *)

Module Delivery.

Lemma truthy_defined (v : jsval) : truthy v = true → v ≠ JUndef.
Proof. by intros H ->. Qed.

Lemma prop_defined (v : jsval) (k : string) : prop v k ≠ JUndef → v ≠ JUndef.
Proof. by intros H ->. Qed.

Lemma get_defined (v : jsval) (k : string) :
  v ≠ JUndef → get v k = mret (prop v k).
Proof. by destruct v. Qed.

Lemma first_defined (v : jsval) : v ≠ JUndef → first v = mret (first_of v).
Proof. destruct v as [|[|c s]|[|x l]|props]; done. Qed.

Lemma get_first_undefined (v : jsval) (k : string) :
  prop v k = JUndef → get v k ≫= first = throw TypeError.
Proof.
  destruct v as [|s|l|props]; try done.
  intros H. unfold get. rewrite bind_ret. simpl in H. by rewrite H.
Qed.

Section Handler.

Variable createHmac : hmac_provider.
Variable self : YouTubeNotifier.
Variable req : request.

Lemma onPost_header_missing :
  header_missing self req = true →
  _onPostRequest createHmac self req = Comp [SendStatus 403] (inr ()).
Proof.
  unfold header_missing, signature_header, _onPostRequest. by intros ->.
Qed.

Lemma onPost_deleted :
  header_missing self req = false → truthy (deleted_entry_of req) = true →
  _onPostRequest createHmac self req = Comp [SendStatus 200] (inr ()).
Proof.
  unfold header_missing, signature_header, _onPostRequest. intros -> Hd.
  pose proof (truthy_defined _ Hd) as Hdef.
  apply prop_defined in Hdef as Hfeed. apply prop_defined in Hfeed as Hbody.
  rewrite (get_defined _ "feed" Hbody), bind_ret.
  fold (feed_of req). rewrite (get_defined _ "at:deleted-entry" Hfeed), bind_ret.
  fold (deleted_entry_of req). by rewrite Hd.
Qed.

Lemma onPost_no_entry :
  header_missing self req = false → feed_of req ≠ JUndef →
  truthy (deleted_entry_of req) = false → truthy (entries_of req) = false →
  _onPostRequest createHmac self req =
    Comp [StatusEnd 400 "text/plain" (Some "Bad Request")] (inr ()).
Proof.
  unfold header_missing, signature_header, _onPostRequest. intros -> Hfeed Hd He.
  apply prop_defined in Hfeed as Hbody.
  rewrite (get_defined _ "feed" Hbody), bind_ret.
  fold (feed_of req). rewrite (get_defined _ "at:deleted-entry" Hfeed), bind_ret.
  fold (deleted_entry_of req). rewrite Hd.
  rewrite (get_defined _ "entry" Hfeed), bind_ret.
  fold (entries_of req). by rewrite He.
Qed.

(** Past the tests on the body, the handler is at [// Match Secret]. *)
Lemma onPost_entry :
  header_missing self req = false →
  truthy (deleted_entry_of req) = false → truthy (entries_of req) = true →
  _onPostRequest createHmac self req =
    if truthy_opt (secret self)
    then match_secret createHmac (default "" (secret self)) req
           (notify self (entry_of req))
    else notify self (entry_of req).
Proof.
  unfold header_missing, signature_header, _onPostRequest. intros -> Hd He.
  pose proof (truthy_defined _ He) as Hdef.
  apply prop_defined in Hdef as Hfeed. apply prop_defined in Hfeed as Hbody.
  rewrite (get_defined _ "feed" Hbody), bind_ret.
  fold (feed_of req). rewrite (get_defined _ "at:deleted-entry" Hfeed), bind_ret.
  fold (deleted_entry_of req). rewrite Hd.
  rewrite (get_defined _ "entry" Hfeed), bind_ret.
  fold (entries_of req). rewrite He. simpl.
  rewrite (first_defined _ Hdef), bind_ret. done.
Qed.

Lemma header_present (key header : string) :
  secret self = Some key → signature_header req = Some header →
  truthy_str header = true → header_missing self req = false.
Proof.
  unfold header_missing. intros -> -> Hh. simpl. rewrite Hh.
  apply andb_false_r.
Qed.

End Handler.

(** *** The extraction *)

Lemma pure_get (v : jsval) (k : string) : pure (get v k).
Proof. destruct v; [by left|right; eauto..]. Qed.

Lemma pure_first (v : jsval) : pure (first v).
Proof. destruct v as [|[|c s]|[|x l]|props]; [by left|right; eauto..]. Qed.

Lemma pure_bind {A B : Type} (m : comp A) (k : A -> comp B) :
  pure m → (∀ a, pure (k a)) → pure (m ≫= k).
Proof.
  intros [->|[a ->]] Hk; [by left|]. rewrite bind_ret. apply Hk.
Qed.

Lemma pure_get_first (v : jsval) (k : string) : pure (get v k ≫= first).
Proof. apply pure_bind; [apply pure_get | apply pure_first]. Qed.

Lemma pure_ret {A : Type} (a : A) : pure (mret a : comp A).
Proof. right; eauto. Qed.

Lemma pure_extract (entry : jsval) : pure (extract entry).
Proof.
  unfold extract.
  repeat (apply pure_bind; [first [apply pure_get_first | apply pure_get]|intros ?]).
  apply pure_ret.
Qed.

(** One read of the extraction: it raises, and the extraction with it,
    or it yields a value and the extraction goes on. *)
Ltac read_step :=
  lazymatch goal with
  | Hp : prop ?v ?k = JUndef |- (get ?v ?k ≫= first) ≫= _ = throw TypeError =>
      rewrite (get_first_undefined v k Hp); reflexivity
  | |- ?m ≫= _ = throw TypeError =>
      let E := fresh "E" in
      let a := fresh "a" in
      first [ destruct (pure_get_first _ _ : pure m) as [E|[a E]]
            | destruct (pure_get _ _ : pure m) as [E|[a E]] ];
      rewrite E; [reflexivity | rewrite !bind_ret]
  end.

(** An entry without one of the seven elements makes the extraction
    raise. *)
Lemma extract_missing (entry : jsval) (k : string) :
  In k entry_elements → prop entry k = JUndef →
  extract entry = throw TypeError.
Proof.
  intros Hk Hp. unfold extract. simpl in Hk.
  repeat (destruct Hk as [<-|Hk]; [repeat read_step|]); done.
Qed.

Lemma notify_cases (self : YouTubeNotifier) (entry : jsval) :
  (extract entry = throw TypeError ∧ notify self entry = Comp [] (inl TypeError))
  ∨ ∃ d, extract entry = mret d
         ∧ notify self entry
           = Comp [Emit "notified" (Notified d); SendStatus 200] (inr ()).
Proof.
  unfold notify. destruct (pure_extract entry) as [->|[d ->]].
  - by left.
  - right. exists d. by rewrite bind_ret.
Qed.

Example extract_sample :
  extract sample_entry = mret {|
    video := {| video_id := JStr "VID1"; video_title := JStr "A video";
                video_link := JStr "https://www.youtube.com/watch?v=VID1" |};
    channel_of := {| channel_id := JStr "UC123"; channel_name := JStr "A channel";
                     channel_link := JStr "https://www.youtube.com/channel/UC123" |};
    published := JStr "2015-03-06T21:40:57+00:00";
    updated := JStr "2015-03-09T19:05:24+00:00" |}.
Proof. reflexivity. Qed.

(** *** The claims on deliveries *)

Lemma onRequest_post (createHmac : hmac_provider) (self : YouTubeNotifier)
    (req : request) :
  method req = "POST" →
  _onRequest createHmac self req = _onPostRequest createHmac self req.
Proof. unfold _onRequest. by intros ->. Qed.

Lemma match_secret_unknown (createHmac : hmac_provider) (req : request)
    (key header : string) (rest : comp unit) :
  signature_header req = Some header →
  createHmac (header_algo header) key = None →
  match_secret createHmac key req rest = Comp [SendStatus 403] (inr ()).
Proof. unfold match_secret, signature_header. by intros -> ->. Qed.

Lemma match_secret_mismatch (createHmac : hmac_provider) (req : request)
    (key header : string) (hmac : string -> string) (rest : comp unit) :
  signature_header req = Some header →
  createHmac (header_algo header) key = Some hmac →
  toLowerCase (hmac (rawBody req)) ≠ header_signature header →
  match_secret createHmac key req rest = Comp [SendStatus 200] (inr ()).
Proof.
  unfold match_secret, signature_header. intros -> -> Hne.
  apply String.eqb_neq in Hne. by rewrite Hne.
Qed.

Lemma match_secret_ok (createHmac : hmac_provider) (req : request)
    (key header : string) (hmac : string -> string) (rest : comp unit) :
  signature_header req = Some header →
  createHmac (header_algo header) key = Some hmac →
  toLowerCase (hmac (rawBody req)) = header_signature header →
  match_secret createHmac key req rest = rest.
Proof.
  unfold match_secret, signature_header. intros -> -> Heq.
  apply String.eqb_eq in Heq. by rewrite Heq.
Qed.

(** C2, as the code has it.  A POST request whose feed has an entry and
    no deletion marker, sent to a notifier with a secret, with a signature
    header whose algorithm name the provider rejects, is answered 403, and
    nothing is emitted. *)
Theorem unknown_algorithm_forbidden (createHmac : hmac_provider)
    (self : YouTubeNotifier) (req : request) (key header : string) :
  method req = "POST" →
  secret self = Some key → truthy_str key = true →
  signature_header req = Some header → truthy_str header = true →
  createHmac (header_algo header) key = None →
  truthy (deleted_entry_of req) = false → truthy (entries_of req) = true →
  _onRequest createHmac self req = Comp [SendStatus 403] (inr ()).
Proof.
  intros Hpost Hs Hk Hh Hht Halgo Hd He.
  rewrite (onRequest_post _ _ _ Hpost).
  rewrite (onPost_entry createHmac self req
             (header_present self req key header Hs Hh Hht) Hd He).
  rewrite Hs. simpl. rewrite Hk.
  by apply match_secret_unknown with header.
Qed.

Lemma unknown_algorithm_forbidden_witness :
  (method post_unknown_algorithm = "POST"
   ∧ secret keyed = Some "s3cret"
   ∧ signature_header post_unknown_algorithm = Some "md99=c0ffee"
   ∧ toy_createHmac (header_algo "md99=c0ffee") "s3cret" = None)
  ∧ _onRequest toy_createHmac keyed post_unknown_algorithm
    = Comp [SendStatus 403] (inr ()).
Proof.
  split; [repeat split; reflexivity|].
  apply (unknown_algorithm_forbidden toy_createHmac keyed post_unknown_algorithm
           "s3cret" "md99=c0ffee"); reflexivity.
Defined.

(** C2 as stated fails: with a secret, a signature header and an
    algorithm the provider rejects, the answer is not 200. *)
Lemma unknown_algorithm_not_200 :
  ¬ (truthy_opt (secret keyed) = true →
     truthy_opt (signature_header post_unknown_algorithm) = true →
     toy_createHmac (header_algo "md99=c0ffee") "s3cret" = None →
     responses (_onRequest toy_createHmac keyed post_unknown_algorithm) = [200%Z]
     ∧ emitted (_onRequest toy_createHmac keyed post_unknown_algorithm) = []).
Proof.
  intros H. destruct H as [H _]; [reflexivity..|]. discriminate H.
Qed.

(** C3, as the code has it.  A POST request whose feed has an entry or
    the deletion marker, sent to a notifier with a secret, with a
    signature header whose algorithm the provider knows and whose
    signature part is not the lower-case hex digest of the raw body, is
    answered 200, and nothing is emitted. *)
Theorem signature_mismatch_ignored (createHmac : hmac_provider)
    (self : YouTubeNotifier) (req : request) (key header : string)
    (hmac : string -> string) :
  method req = "POST" →
  secret self = Some key → truthy_str key = true →
  signature_header req = Some header → truthy_str header = true →
  createHmac (header_algo header) key = Some hmac →
  toLowerCase (hmac (rawBody req)) ≠ header_signature header →
  truthy (deleted_entry_of req) || truthy (entries_of req) = true →
  _onRequest createHmac self req = Comp [SendStatus 200] (inr ()).
Proof.
  intros Hpost Hs Hk Hh Hht Halgo Hne Hbody.
  rewrite (onRequest_post _ _ _ Hpost).
  pose proof (header_present self req key header Hs Hh Hht) as Hm.
  destruct (truthy (deleted_entry_of req)) eqn:Hd.
  - by apply onPost_deleted.
  - simpl in Hbody. rewrite (onPost_entry createHmac self req Hm Hd Hbody).
    rewrite Hs. simpl. rewrite Hk.
    by apply match_secret_mismatch with header hmac.
Qed.

Lemma signature_mismatch_ignored_witness :
  (method post_mismatch = "POST"
   ∧ secret keyed = Some "s3cret"
   ∧ signature_header post_mismatch = Some "sha1=0badf00d"
   ∧ toLowerCase "c0ffee" ≠ header_signature "sha1=0badf00d")
  ∧ _onRequest toy_createHmac keyed post_mismatch = Comp [SendStatus 200] (inr ()).
Proof.
  split; [repeat split; try reflexivity; discriminate|].
  apply (signature_mismatch_ignored toy_createHmac keyed post_mismatch
           "s3cret" "sha1=0badf00d" (fun _ => "c0ffee"));
    try reflexivity; discriminate.
Defined.

(** C3 as stated fails on a feed without an entry: the answer is 400,
    given before the signature is looked at. *)
Lemma signature_mismatch_no_entry_400 :
  ¬ (truthy_opt (secret keyed) = true →
     truthy_opt (signature_header post_mismatch_no_entry) = true →
     (∀ hmac, toy_createHmac (header_algo "sha1=0badf00d") "s3cret" = Some hmac →
              toLowerCase (hmac (rawBody post_mismatch_no_entry))
              ≠ header_signature "sha1=0badf00d") →
     responses (_onRequest toy_createHmac keyed post_mismatch_no_entry) = [200%Z]
     ∧ emitted (_onRequest toy_createHmac keyed post_mismatch_no_entry) = []).
Proof.
  intros H. destruct H as [H _]; [reflexivity..| |discriminate H].
  intros hmac Hh. injection Hh as <-. discriminate.
Qed.

(** C4, as the code has it.  A POST request whose feed carries the
    deletion marker makes the handler emit nothing; it is answered 200,
    unless a secret is configured and the request has no signature header:
    then the first test of the handler answers 403. *)
Theorem deleted_entry_response (createHmac : hmac_provider)
    (self : YouTubeNotifier) (req : request) :
  method req = "POST" →
  truthy (deleted_entry_of req) = true →
  _onRequest createHmac self req =
    Comp [SendStatus (if truthy_opt (secret self)
                         && negb (truthy_opt (signature_header req))
                      then 403 else 200)] (inr ()).
Proof.
  intros Hpost Hd. rewrite (onRequest_post _ _ _ Hpost).
  fold (header_missing self req).
  destruct (header_missing self req) eqn:Hm.
  - by apply onPost_header_missing.
  - by apply onPost_deleted.
Qed.

Lemma deleted_entry_response_witness :
  (method post_deleted_signed = "POST"
   ∧ truthy (deleted_entry_of post_deleted_signed) = true)
  ∧ _onRequest toy_createHmac keyed post_deleted_signed = Comp [SendStatus 200] (inr ()).
Proof.
  split; [split; reflexivity|].
  apply (deleted_entry_response toy_createHmac keyed post_deleted_signed); reflexivity.
Defined.

(** C4 as stated fails when a secret is configured and the request has no
    signature header: the deletion is answered 403. *)
Lemma deleted_entry_unsigned_403 :
  ¬ (truthy (deleted_entry_of post_deleted_unsigned) = true →
     responses (_onRequest toy_createHmac keyed post_deleted_unsigned) = [200%Z]
     ∧ emitted (_onRequest toy_createHmac keyed post_deleted_unsigned) = []).
Proof.
  intros H. destruct H as [H _]; [reflexivity|]. discriminate H.
Qed.

Lemma passes_checks_inv (createHmac : hmac_provider) (self : YouTubeNotifier)
    (req : request) :
  passes_checks createHmac self req = true →
  _onPostRequest createHmac self req = notify self (entry_of req).
Proof.
  unfold passes_checks. intros H.
  apply andb_prop in H as [H Hsig]. apply andb_prop in H as [Hd He].
  apply negb_true_iff in Hd.
  assert (header_missing self req = false) as Hm.
  { unfold header_missing. unfold signature_ok in Hsig.
    destruct (secret self) as [key|]; [|done]. simpl.
    destruct (truthy_str key); [|done].
    destruct (signature_header req) as [header|]; [|done]. simpl.
    apply andb_prop in Hsig as [-> _]. done. }
  rewrite (onPost_entry createHmac self req Hm Hd He).
  unfold signature_ok in Hsig.
  destruct (secret self) as [key|]; [|done]. simpl.
  destruct (truthy_str key); [|done].
  destruct (signature_header req) as [header|] eqn:Hh; [|done].
  apply andb_prop in Hsig as [_ Hsig].
  destruct (createHmac (header_algo header) key) as [hmac|] eqn:Halgo; [|done].
  apply String.eqb_eq in Hsig.
  by apply match_secret_ok with header hmac.
Qed.

(** C7, as the code has it.  The handler does not check the entry of a
    POST request that passes the signature checks, and never answers 400
    for a missing field.  Either a read raises a [TypeError] that leaves
    the handler, which then has sent no response and emitted nothing --
    and so it is whenever the entry lacks one of the elements it reads --
    or the handler emits one "notified" event made of the values it read,
    whatever they are, and answers 200. *)
Theorem entry_not_validated (createHmac : hmac_provider)
    (self : YouTubeNotifier) (req : request) :
  method req = "POST" →
  passes_checks createHmac self req = true →
  (∀ k, In k entry_elements → prop (entry_of req) k = JUndef →
        _onRequest createHmac self req = Comp [] (inl TypeError))
  ∧ (_onRequest createHmac self req = Comp [] (inl TypeError)
     ∨ ∃ d, extract (entry_of req) = mret d
            ∧ _onRequest createHmac self req =
                Comp [Emit "notified" (Notified d); SendStatus 200] (inr ())).
Proof.
  intros Hpost Hpass. rewrite (onRequest_post _ _ _ Hpost).
  rewrite (passes_checks_inv _ _ _ Hpass). split.
  - intros k Hk Hp. unfold notify. by rewrite (extract_missing _ k Hk Hp).
  - destruct (notify_cases self (entry_of req)) as [[_ ->]|(d & Hd & ->)]; eauto.
Qed.

Lemma entry_not_validated_witness :
  (method post_title_only = "POST"
   ∧ passes_checks toy_createHmac (notifier_of None) post_title_only = true
   ∧ prop (entry_of post_title_only) "yt:videoid" = JUndef)
  ∧ _onRequest toy_createHmac (notifier_of None) post_title_only
    = Comp [] (inl TypeError).
Proof.
  split; [repeat split; reflexivity|].
  apply (entry_not_validated toy_createHmac (notifier_of None) post_title_only
           eq_refl eq_refl) with "yt:videoid"; [simpl; auto | reflexivity].
Defined.

(** C7 as stated fails twice over.  An entry with a title only makes the
    handler raise: no 400 is sent, and the exception leaves the handler.
    An entry whose link has no [href] yields a "notified" event whose
    link is [undefined], and a 200. *)
Lemma incomplete_entry_not_400 :
  ¬ (passes_checks toy_createHmac (notifier_of None) post_title_only = true →
     prop (entry_of post_title_only) "yt:videoid" = JUndef →
     responses (_onRequest toy_createHmac (notifier_of None) post_title_only) = [400%Z]
     ∧ outcome (_onRequest toy_createHmac (notifier_of None) post_title_only) = inr ())
  ∧ ¬ (passes_checks toy_createHmac (notifier_of None) post_without_href = true →
       prop (prop (first_of (prop (entry_of post_without_href) "link")) "$") "href"
       = JUndef →
       responses (_onRequest toy_createHmac (notifier_of None) post_without_href) = [400%Z]
       ∧ emitted (_onRequest toy_createHmac (notifier_of None) post_without_href) = []).
Proof.
  split; intros H.
  - destruct H as [H _]; [reflexivity..|]. discriminate H.
  - destruct H as [H _]; [reflexivity..|]. discriminate H.
Qed.

Example incomplete_entry_samples :
  _onRequest toy_createHmac (notifier_of None) post_title_only = Comp [] (inl TypeError)
  ∧ ∃ d, _onRequest toy_createHmac (notifier_of None) post_without_href
         = Comp [Emit "notified" (Notified d); SendStatus 200] (inr ())
         ∧ video_link (video d) = JUndef.
Proof. split; [reflexivity|]. eexists. split; reflexivity. Qed.

(** A delivery whose signature is the digest: one event, and a 200. *)
Example post_signed_sample :
  responses (_onRequest toy_createHmac keyed
               (post_request (Some "SHA1=C0FFEE") raw_feed (feed_with [sample_entry])))
  = [200%Z]
  ∧ length (emitted (_onRequest toy_createHmac keyed
               (post_request (Some "SHA1=C0FFEE") raw_feed (feed_with [sample_entry]))))
    = 1.
Proof. split; reflexivity. Qed.

(** Methods other than GET and POST are refused. *)
Lemma other_method_forbidden (createHmac : hmac_provider)
    (self : YouTubeNotifier) (req : request) :
  method req ≠ "GET" → method req ≠ "POST" →
  _onRequest createHmac self req = Comp [SendStatus 403] (inr ()).
Proof.
  intros Hg Hp. unfold _onRequest.
  apply String.eqb_neq in Hg, Hp. by rewrite Hg, Hp.
Qed.

End Delivery.

(** * Further properties *)

(** ** Strings *)

Module Strings.

Local Arguments String.append : simpl nomatch.

Lemma has_char_app (c : ascii) (a b : string) :
  has_char c (a +:+ b) = has_char c a || has_char c b.
Proof.
  induction a as [|x a IH]; simpl; [done|]. by rewrite IH, orb_assoc.
Qed.

Lemma drop_prefix_app (p s : string) : drop_prefix p (p +:+ s) = Some s.
Proof.
  induction p as [|c p IH]; simpl; [done|]. by rewrite Ascii.eqb_refl.
Qed.

Lemma drop_prefix_Some (p s r : string) :
  drop_prefix p s = Some r → s = p +:+ r.
Proof.
  revert s. induction p as [|c p IH]; intros s; simpl.
  - by intros [= ->].
  - destruct s as [|d s]; [done|].
    destruct (Ascii.eqb c d) eqn:E; [|done].
    apply Ascii.eqb_eq in E as ->. intros H. by rewrite (IH _ H).
Qed.

(** [replace] takes out one occurrence of the pattern, or leaves the
    string as it is when the pattern is nowhere in it. *)
Lemma replace_first_cases (pat rep s : string) :
  (∃ pre post, s = pre +:+ pat +:+ post
               ∧ replace_first pat rep s = pre +:+ rep +:+ post)
  ∨ ((∀ pre post, s ≠ pre +:+ pat +:+ post) ∧ replace_first pat rep s = s).
Proof.
  induction s as [|c s IH].
  - simpl. destruct (drop_prefix pat "") as [r|] eqn:E.
    + left. exists "", r. simpl. split; [by apply drop_prefix_Some|done].
    + right. split; [|done]. intros pre post H.
      destruct pre; [|done]. simpl in H. rewrite H, drop_prefix_app in E. done.
  - simpl. destruct (drop_prefix pat (String c s)) as [r|] eqn:E.
    + left. exists "", r. simpl. split; [by apply drop_prefix_Some|done].
    + destruct IH as [(pre & post & -> & ->)|[Hno ->]].
      * left. by exists (String c pre), post.
      * right. split; [|done]. intros pre post H.
        destruct pre as [|d pre]; simpl in H.
        -- rewrite H, drop_prefix_app in E. done.
        -- injection H as -> H. by apply (Hno pre post).
Qed.

Lemma replace_first_prefix (pat rep s : string) :
  replace_first pat rep (pat +:+ s) = rep +:+ s.
Proof.
  destruct (pat +:+ s) eqn:E; simpl; rewrite <- E, drop_prefix_app; done.
Qed.

Lemma truthy_lower (s : string) : truthy_str (toLowerCase s) = truthy_str s.
Proof. by destruct s. Qed.

Lemma lower_ascii_idem (c : ascii) : lower_ascii (lower_ascii c) = lower_ascii c.
Proof. destruct c as [[] [] [] [] [] [] [] []]; reflexivity. Qed.

Lemma lower_ascii_eq (c : ascii) : Ascii.eqb (lower_ascii c) "=" = Ascii.eqb c "=".
Proof. destruct c as [[] [] [] [] [] [] [] []]; reflexivity. Qed.

Lemma toLowerCase_idem (s : string) : toLowerCase (toLowerCase s) = toLowerCase s.
Proof.
  induction s as [|c s IH]; simpl; [done|]. by rewrite lower_ascii_idem, IH.
Qed.

Lemma split_on_cons (sep : ascii) (s : string) :
  ∃ x xs, split_on sep s = x :: xs.
Proof.
  induction s as [|c s (x & xs & IH)]; simpl; [eauto|].
  destruct (Ascii.eqb c sep); [eauto|]. rewrite IH. eauto.
Qed.

Lemma split_on_none (sep : ascii) (s : string) :
  has_char sep s = false → split_on sep s = [s].
Proof.
  induction s as [|c s IH]; simpl; [done|].
  intros H. apply orb_false_elim in H as [-> H]. by rewrite (IH H).
Qed.

Lemma split_on_app (sep : ascii) (a b : string) :
  has_char sep a = false →
  split_on sep (a +:+ String sep b) = a :: split_on sep b.
Proof.
  induction a as [|c a IH]; simpl.
  - intros _. by rewrite Ascii.eqb_refl.
  - intros H. apply orb_false_elim in H as [-> H]. by rewrite (IH H).
Qed.

Lemma split_on_lower (s : string) :
  split_on "=" (toLowerCase s) = map toLowerCase (split_on "=" s).
Proof.
  induction s as [|c s IH]; simpl; [done|].
  rewrite lower_ascii_eq. destruct (Ascii.eqb c "="); simpl.
  - by rewrite IH.
  - rewrite IH. destruct (split_on_cons "=" s) as (x & xs & ->). done.
Qed.

End Strings.

(** ** The form encoding of a request *)

Module Encoding.

Local Arguments String.append : simpl nomatch.

Lemma qs_escape_cons (c : ascii) (r : string) :
  qs_escape (String c r) = qs_escape_char c +:+ qs_escape r.
Proof. unfold qs_escape_char. simpl. by destruct (qs_unreserved c). Qed.

Lemma escape_char_clean (c : ascii) :
  has_char "&" (qs_escape_char c) = false ∧ has_char "=" (qs_escape_char c) = false.
Proof. destruct c as [[] [] [] [] [] [] [] []]; split; reflexivity. Qed.

(** An encoded string has neither of the two separators of a form. *)
Lemma escape_clean (s : string) :
  has_char "&" (qs_escape s) = false ∧ has_char "=" (qs_escape s) = false.
Proof.
  induction s as [|c s [IH1 IH2]]; [done|].
  rewrite qs_escape_cons, !Strings.has_char_app, IH1, IH2.
  by destruct (escape_char_clean c) as [-> ->].
Qed.

Lemma hex_pair (c : ascii) :
  ascii_of_nat (16 * unhex (hex_digit (nat_of_ascii c / 16))
                + unhex (hex_digit (nat_of_ascii c mod 16))) = c.
Proof. destruct c as [[] [] [] [] [] [] [] []]; reflexivity. Qed.

Lemma escape_char_inj (c1 c2 : ascii) (r1 r2 : string) :
  qs_escape_char c1 +:+ r1 = qs_escape_char c2 +:+ r2 → c1 = c2 ∧ r1 = r2.
Proof.
  unfold qs_escape_char.
  destruct (qs_unreserved c1) eqn:U1, (qs_unreserved c2) eqn:U2;
    cbv beta iota zeta delta [String.append]; intros H.
  - by injection H.
  - injection H as -> _. discriminate U1.
  - injection H as <- _. discriminate U2.
  - injection H as Ha Hb ->. split; [|done].
    rewrite <- (hex_pair c1), <- (hex_pair c2).
    exact (f_equal2 (fun a b => ascii_of_nat (16 * unhex a + unhex b)) Ha Hb).
Qed.

Lemma escape_char_cons (c : ascii) : ∃ x r, qs_escape_char c = String x r.
Proof. unfold qs_escape_char. destruct (qs_unreserved c); eauto. Qed.

(** Two strings with the same encoding are the same string. *)
Lemma qs_escape_inj (s1 s2 : string) : qs_escape s1 = qs_escape s2 → s1 = s2.
Proof.
  revert s2. induction s1 as [|c1 s1 IH]; intros [|c2 s2]; [done|..].
  - rewrite qs_escape_cons. destruct (escape_char_cons c2) as (x & r & ->). done.
  - rewrite qs_escape_cons. destruct (escape_char_cons c1) as (x & r & ->). done.
  - rewrite !qs_escape_cons. intros H.
    apply escape_char_inj in H as [-> H]. by rewrite (IH _ H).
Qed.

Lemma field_clean (kv : string * string) : has_char "&" (qs_field kv) = false.
Proof.
  unfold qs_field. rewrite !Strings.has_char_app.
  destruct (escape_clean kv.1) as [-> _], (escape_clean kv.2) as [-> _]. done.
Qed.

Lemma field_split (kv : string * string) :
  split_on "=" (qs_field kv) = [qs_escape kv.1; qs_escape kv.2].
Proof.
  unfold qs_field. destruct (escape_clean kv.1) as [_ H1], (escape_clean kv.2) as [_ H2].
  change ("=" +:+ qs_escape kv.2) with (String "=" (qs_escape kv.2)).
  by rewrite (Strings.split_on_app "=" _ _ H1), (Strings.split_on_none "=" _ H2).
Qed.

Lemma stringify_cons (kv : string * string) (data : list (string * string)) :
  data ≠ [] →
  qs_stringify (kv :: data) = qs_field kv +:+ String "&" (qs_stringify data).
Proof. by destruct data. Qed.

(** A form body falls apart at [&] into its encoded fields. *)
Lemma stringify_split (data : list (string * string)) :
  data ≠ [] → split_on "&" (qs_stringify data) = map qs_field data.
Proof.
  induction data as [|kv data IH]; [done|]. intros _.
  destruct data as [|kv' data].
  - unfold qs_stringify. simpl. apply Strings.split_on_none, field_clean.
  - rewrite stringify_cons by done.
    rewrite (Strings.split_on_app "&" _ _ (field_clean kv)).
    rewrite IH by done. done.
Qed.

Lemma request_data_cons (self : YouTubeNotifier) (c i : string) :
  ∃ rest, request_data self c i
          = ("hub.callback", hubCallback self) :: ("hub.mode", i)
            :: ("hub.topic", base_topic +:+ c) :: rest
          ∧ (rest = [] ∨ ∃ s, rest = [("hub.secret", s)]).
Proof.
  unfold request_data. destruct (secret self) as [s|]; [|eauto].
  destruct (truthy_str s); simpl; eauto 6.
Qed.

(** Whatever the channel id and the mode hold, [&] and [=] included, the
    body of the request falls apart at [&] and then at [=] into the
    fields of [data] and nothing else, each a key and a value. *)
Theorem body_fields (self : YouTubeNotifier) (c i : string) :
  map (split_on "=") (split_on "&" (qs_stringify (request_data self c i)))
  = map (fun kv => [qs_escape kv.1; qs_escape kv.2]) (request_data self c i).
Proof.
  destruct (request_data_cons self c i) as (rest & E & _).
  rewrite stringify_split by (rewrite E; done).
  rewrite map_map. apply map_ext. intros kv. apply field_split.
Qed.

(** Two requests of one notifier with the same body are for the same
    channel id and the same mode. *)
Theorem body_determines_channel (self : YouTubeNotifier) (c1 c2 i1 i2 : string) :
  qs_stringify (request_data self c1 i1) = qs_stringify (request_data self c2 i2) →
  c1 = c2 ∧ i1 = i2.
Proof.
  intros H.
  apply (f_equal (fun b => map (split_on "=") (split_on "&" b))) in H.
  rewrite !body_fields in H.
  destruct (request_data_cons self c1 i1) as (r1 & E1 & _).
  destruct (request_data_cons self c2 i2) as (r2 & E2 & _).
  rewrite E1, E2 in H. cbn [map fst snd] in H. injection H as Hi Ht _.
  split; by apply qs_escape_inj.
Qed.

Lemma body_determines_channel_witness :
  qs_stringify (request_data keyed "UC123" "subscribe")
  = qs_stringify (request_data keyed "UC123" "subscribe")
  ∧ ("UC123" = "UC123" ∧ "subscribe" = "subscribe").
Proof.
  split; [reflexivity|].
  apply (body_determines_channel keyed "UC123" "UC123" "subscribe" "subscribe");
    reflexivity.
Defined.

(** A channel id that spells a form field adds none. *)
Example body_fields_sample :
  split_on "&" (qs_stringify (request_data (notifier_of None) "UC1&hub.mode=unsubscribe"
                                "subscribe"))
  = ["hub.callback=http%3A%2F%2Fexample.com%2Fcb";
     "hub.mode=subscribe";
     "hub.topic=https%3A%2F%2Fwww.youtube.com%2Fxml%2Ffeeds%2Fvideos.xml%3Fchannel_id%3DUC1%26hub.mode%3Dunsubscribe"].
Proof. reflexivity. Qed.

End Encoding.

(** ** The fields of the form body *)

Module FormBody.

Lemma request_fields (self : YouTubeNotifier) (c i : string) :
  form_fields (qs_stringify (request_data self c i))
  = map (fun kv => [qs_escape kv.1; qs_escape kv.2]) (request_data self c i).
Proof.
  unfold form_fields.
  destruct (Encoding.request_data_cons self c i) as (rest & E & _).
  rewrite Encoding.stringify_split by (rewrite E; done).
  rewrite map_map. apply map_ext. intros kv. apply Encoding.field_split.
Qed.

Lemma field_in_iff (k v : string) (data : list (string * string)) :
  In [qs_escape k; qs_escape v]
     (map (fun kv => [qs_escape kv.1; qs_escape kv.2]) data)
  ↔ In (k, v) data.
Proof.
  rewrite in_map_iff. split.
  - intros ([k' v'] & E & Hin). simpl in E. injection E as Ek Ev.
    apply Encoding.qs_escape_inj in Ek, Ev. by subst.
  - intros Hin. by exists (k, v).
Qed.

Lemma key_in_iff (k : string) (data : list (string * string)) :
  (∃ x, In [qs_escape k; x] (map (fun kv => [qs_escape kv.1; qs_escape kv.2]) data))
  ↔ ∃ v, In (k, v) data.
Proof.
  split.
  - intros (x & Hin). apply in_map_iff in Hin as ([k' v'] & E & Hin).
    simpl in E. injection E as Ek _. apply Encoding.qs_escape_inj in Ek. subst.
    by exists v'.
  - intros (v & Hin). exists (qs_escape v). by apply field_in_iff.
Qed.

(** The fields of [data], read off the two shapes it can have. *)
Lemma request_data_field (self : YouTubeNotifier) (c i k v : string) :
  In (k, v) (request_data self c i)
  ↔ (k = "hub.callback" ∧ v = hubCallback self)
    ∨ (k = "hub.mode" ∧ v = i)
    ∨ (k = "hub.topic" ∧ v = base_topic +:+ c)
    ∨ (k = "hub.secret" ∧ secret self = Some v ∧ truthy_str v = true).
Proof.
  destruct (truthy_opt (secret self)) eqn:Hs.
  - destruct (secret self) as [s|] eqn:Hsec; [|done]. simpl in Hs.
    rewrite (Subscription.request_data_secret self c i s Hsec Hs). simpl. split.
    + intros [H|[H|[H|[H|[]]]]]; injection H as <- <-; auto 10.
    + intros [[-> ->]|[[-> ->]|[[-> ->]|(-> & [= <-] & _)]]]; auto 10.
  - rewrite (Subscription.request_data_no_secret self c i Hs). simpl. split.
    + intros [H|[H|[H|[]]]]; injection H as <- <-; auto 10.
    + intros [[-> ->]|[[-> ->]|[[-> ->]|(-> & Hsec & Hv)]]]; auto 10.
      rewrite Hsec in Hs. simpl in Hs. congruence.
Qed.

(** C8.  Whatever the channel id [c] and the mode [i] (so for the two
    intents "subscribe" and "unsubscribe"), [_makeRequest] performs one
    [post] to [hubUrl] with the header
    [Content-Type: application/x-www-form-urlencoded] and a form body in
    which [hub.callback] is [hubCallback] and nothing else, [hub.mode] is
    [i] and nothing else, [hub.topic] is [base_topic + c] and nothing
    else, and which has a [hub.secret] field exactly when the notifier
    has a secret (one that [if (this.secret)] accepts), with that secret
    for value. *)
Theorem makeRequest_body (self : YouTubeNotifier) (c i : string) :
  ∃ body : string,
    _makeRequest self c i =
      Comp [Post (hubUrl self) body
              [("Content-Type", "application/x-www-form-urlencoded")]] (inr ())
    ∧ (∀ v, form_field body "hub.callback" v ↔ v = hubCallback self)
    ∧ (∀ v, form_field body "hub.mode" v ↔ v = i)
    ∧ (∀ v, form_field body "hub.topic" v ↔ v = base_topic +:+ c)
    ∧ (∀ v, form_field body "hub.secret" v
            ↔ secret self = Some v ∧ truthy_str v = true)
    ∧ (form_key body "hub.secret" ↔ truthy_opt (secret self) = true).
Proof.
  exists (qs_stringify (request_data self c i)). split; [done|].
  unfold form_field, form_key. rewrite request_fields.
  split; [|split; [|split; [|split]]].
  - intros v. rewrite field_in_iff, request_data_field. split.
    + intros [[_ ->]|[[[=] _]|[[[=] _]|[[=] _]]]]. done.
    + intros ->. auto.
  - intros v. rewrite field_in_iff, request_data_field. split.
    + intros [[[=] _]|[[_ ->]|[[[=] _]|[[=] _]]]]. done.
    + intros ->. auto.
  - intros v. rewrite field_in_iff, request_data_field. split.
    + intros [[[=] _]|[[[=] _]|[[_ ->]|[[=] _]]]]. done.
    + intros ->. auto.
  - intros v. rewrite field_in_iff, request_data_field. split.
    + intros [[[=] _]|[[[=] _]|[[[=] _]|(_ & H1 & H2)]]]. done.
    + intros [H1 H2]. auto 10.
  - rewrite key_in_iff. split.
    + intros (v & Hin). apply request_data_field in Hin
        as [[[=] _]|[[[=] _]|[[[=] _]|(_ & -> & H2)]]]. done.
    + intros Hs. destruct (secret self) as [s|] eqn:Hsec; [|done].
      exists s. apply request_data_field. auto 10.
Qed.

(** The body of a request of a notifier with a secret, and what a channel
    id that spells a field does to it: nothing. *)
Example makeRequest_body_sample :
  form_fields (qs_stringify (request_data keyed "UC1&hub.secret=x" "subscribe"))
  = [["hub.callback"; "http%3A%2F%2Fexample.com%2Fcb"];
     ["hub.mode"; "subscribe"];
     ["hub.topic";
      "https%3A%2F%2Fwww.youtube.com%2Fxml%2Ffeeds%2Fvideos.xml%3Fchannel_id%3DUC1%26hub.secret%3Dx"];
     ["hub.secret"; "s3cret"]].
Proof. reflexivity. Qed.

End FormBody.

(** ** Batches of channel ids *)

Module Batch.

(** Given an array, [subscribe] fires one request for each element, in
    the order of the array, and returns; no element is rejected or
    skipped, be it empty or a repetition. *)
Theorem subscribe_array (self : YouTubeNotifier) (l : list string) :
  subscribe self (ChArray l) =
    Comp (map (fun c => Post (hubUrl self)
                          (qs_stringify (request_data self c "subscribe"))
                          form_headers) l)
         (inr ()).
Proof.
  unfold subscribe. simpl.
  induction l as [|c l IH]; [done|].
  simpl. unfold mbind, comp_bind. simpl. by rewrite IH.
Qed.

(** [unsubscribe] does as much for an array, with the mode
    "unsubscribe". *)
Theorem unsubscribe_array (self : YouTubeNotifier) (l : list string) :
  unsubscribe self (ChArray l) =
    Comp (map (fun c => Post (hubUrl self)
                          (qs_stringify (request_data self c "unsubscribe"))
                          form_headers) l)
         (inr ()).
Proof.
  unfold unsubscribe. simpl.
  induction l as [|c l IH]; [done|].
  simpl. unfold mbind, comp_bind. simpl. by rewrite IH.
Qed.

(** A list of ids passed at once makes the requests that passing the ids
    one by one makes: there is no state from one request to the next. *)
Theorem subscribe_array_app (self : YouTubeNotifier) (l1 l2 : list string) :
  effects (subscribe self (ChArray (l1 ++ l2)%list))
  = (effects (subscribe self (ChArray l1)) ++ effects (subscribe self (ChArray l2)))%list.
Proof. rewrite !subscribe_array. simpl. apply map_app. Qed.

End Batch.

(** ** Construction and the standalone server *)

Module Construction.

(** [new YouTubeNotifier(options)] throws exactly when [hubCallback] is
    absent or empty.  Otherwise the notifier has that callback, the
    secret and the middleware flag of the options, and a hub URL, a path
    and a port that are never empty or zero. *)
Theorem constructor_cases (options : NotifierOptions) :
  (truthy_opt (opt_hubCallback options) = false
   ∧ constructor options = inl (Error "You need to provide the callback URL."))
  ∨ ∃ n, constructor options = inr n
         ∧ opt_hubCallback options = Some (hubCallback n)
         ∧ truthy_str (hubCallback n) = true
         ∧ truthy_str (hubUrl n) = true
         ∧ truthy_str (path n) = true
         ∧ port n ≠ 0%Z
         ∧ secret n = opt_secret options
         ∧ middleware n = opt_middleware options.
Proof.
  unfold constructor.
  destruct (truthy_opt (opt_hubCallback options)) eqn:Hcb; [right|by left].
  eexists. split; [reflexivity|]. simpl.
  destruct (opt_hubCallback options) as [cb|]; [|done]. simpl in *.
  repeat split; try done.
  - unfold or_default. destruct (opt_hubUrl options) as [u|]; [|done].
    by destruct (truthy_str u) eqn:E.
  - unfold or_default. destruct (opt_path options) as [u|]; [|done].
    by destruct (truthy_str u) eqn:E.
  - destruct (opt_port options) as [p|]; [|done].
    destruct (p =? 0)%Z eqn:E; [done|]. by apply Z.eqb_neq.
Qed.

(** [setup] on a notifier built with the middleware flag throws; on any
    other built notifier it mounts the handler on the path and then
    listens on the port, which are "/" and 3000 when the options give
    none. *)
Theorem setup_after_constructor (options : NotifierOptions) (n : YouTubeNotifier) :
  constructor options = inr n →
  (opt_middleware options = true →
     setup n = inl (Error "You cannot setup a server if you are using middleware."))
  ∧ (opt_middleware options = false →
     setup n = inr [Use (path n); Listen (port n)]
     ∧ (opt_path options = None → path n = "/")
     ∧ (opt_port options = None → port n = 3000%Z)).
Proof.
  unfold constructor. destruct (negb _); [done|]. intros [= <-].
  unfold setup, server. simpl. split; intros ->; [done|].
  split; [done|]. split; by intros ->.
Qed.

Lemma setup_after_constructor_witness :
  constructor (sample_options None) = inr (notifier_of None)
  ∧ setup (notifier_of None) = inr [Use "/"; Listen 3000%Z].
Proof.
  split; [reflexivity|].
  apply (setup_after_constructor (sample_options None) (notifier_of None)); reflexivity.
Defined.

End Construction.

(** ** More on intent verification *)

Module Handshake.

Lemma onRequest_get (createHmac : hmac_provider) (self : YouTubeNotifier)
    (req : request) :
  method req = "GET" → _onRequest createHmac self req = _onGetRequest self req.
Proof. unfold _onRequest. by intros ->. Qed.

(** The four ways of a handshake.  A query that lacks [hub.topic] or
    [hub.mode]: 400, no event.  Else a repeated [hub.challenge]: [end]
    raises, no response and no event.  Else a repeated [hub.topic]: the
    200, then [replace] raises, no event.  Else the 200 and one call of
    [emit], which throws only for the name "error" that nobody listens
    to. *)
Theorem get_outcomes (createHmac : hmac_provider) (self : YouTubeNotifier)
    (req : request) :
  method req = "GET" →
  (lacks (query req) "hub.topic" || lacks (query req) "hub.mode" = true
   ∧ _onRequest createHmac self req =
       Comp [StatusEnd 400 "text/plain" (Some "Bad Request")] (inr ()))
  ∨ (lacks (query req) "hub.topic" || lacks (query req) "hub.mode" = false
     ∧ repeated (query req !! "hub.challenge") = true
     ∧ _onRequest createHmac self req = Comp [] (inl TypeError))
  ∨ (lacks (query req) "hub.topic" || lacks (query req) "hub.mode" = false
     ∧ repeated (query req !! "hub.challenge") = false
     ∧ repeated (query req !! "hub.topic") = true
     ∧ _onRequest createHmac self req =
         Comp [StatusEnd 200 "text/plain" (str_of (query req !! "hub.challenge"))]
              (inl TypeError))
  ∨ (lacks (query req) "hub.topic" || lacks (query req) "hub.mode" = false
     ∧ repeated (query req !! "hub.challenge") = false
     ∧ repeated (query req !! "hub.topic") = false
     ∧ ∃ name d,
         query req !! "hub.mode" = Some name
         ∧ _onRequest createHmac self req =
             Comp [StatusEnd 200 "text/plain" (str_of (query req !! "hub.challenge"));
                   Emit name (Intent d)]
                  (if unheard self name then inl UnhandledError else inr ())).
Proof.
  intros Hget. rewrite (onRequest_get _ _ _ Hget).
  destruct (lacks (query req) "hub.topic" || lacks (query req) "hub.mode") eqn:Hl.
  { left. split; [done|]. unfold lacks in Hl. unfold _onGetRequest. by rewrite Hl. }
  right. destruct (repeated (query req !! "hub.challenge")) eqn:Hc.
  { left. split; [done|]. split; [done|].
    by apply Verification.onGetRequest_repeated_challenge. }
  right. unfold lacks in Hl. apply orb_false_elim in Hl as [Ht Hm].
  apply negb_false_iff in Ht, Hm.
  destruct (Verification.truthy_q_Some _ Ht) as ([topic|topics] & Ht' & Htt).
  - right. destruct (Verification.truthy_q_Some _ Hm) as (mode & Hm' & Hmt).
    rewrite (Verification.onGetRequest_verified self req topic mode Ht' Htt Hm' Hmt Hc).
    rewrite Ht'. repeat (split; [done|]). eauto.
  - left. rewrite (Verification.onGetRequest_repeated_topic self req topics Ht' Hm Hc).
    by rewrite Ht'.
Qed.

Lemma get_outcomes_witness :
  method verify_error = "GET"
  ∧ _onRequest toy_createHmac keyed verify_error
    = Comp [StatusEnd 200 "text/plain" (Some "abc");
            Emit "error" (Intent {| type := "error"; channel := "UC123";
                                    lease_seconds := None |})]
           (inl UnhandledError).
Proof.
  split; [reflexivity|].
  destruct (get_outcomes toy_createHmac keyed verify_error eq_refl)
    as [[H _]|[(_ & H & _)|[(_ & _ & H & _)|(_ & _ & _ & name & d & _ & _)]]];
    [discriminate H..|reflexivity].
Defined.

(** The handshake looks at the query and at nothing else of the request,
    and at nothing of the notifier but its listener for "error": not at
    the secret, the headers or the body.  Two GET requests with the same
    query get the same response and the same call of [emit] from any two
    notifiers, and end alike when the two notifiers agree on having a
    listener for "error". *)
Theorem get_depends_on_query (c1 c2 : hmac_provider) (self1 self2 : YouTubeNotifier)
    (req1 req2 : request) :
  method req1 = "GET" → method req2 = "GET" → query req1 = query req2 →
  effects (_onRequest c1 self1 req1) = effects (_onRequest c2 self2 req2)
  ∧ (error_listener self1 = error_listener self2 →
     _onRequest c1 self1 req1 = _onRequest c2 self2 req2).
Proof.
  intros H1 H2 Hq.
  rewrite (onRequest_get _ _ _ H1), (onRequest_get _ _ _ H2).
  unfold _onGetRequest. rewrite Hq.
  destruct (negb (truthy_q (query req2 !! "hub.topic"))
            || negb (truthy_q (query req2 !! "hub.mode"))); [done|].
  destruct (query req2 !! "hub.challenge") as [[ch|chs]|];
    cbn [status_end]; rewrite ?bind_perform, ?bind_throw; try done;
    (destruct (query req2 !! "hub.mode") as [mode|]; [|done]);
    (destruct (query req2 !! "hub.topic") as [[topic|topics]|]; try done);
    rewrite !Verification.emit_run; cbn [effects outcome];
    (split; [done|]); unfold unheard; by intros ->.
Qed.

Lemma get_depends_on_query_witness :
  (method verify_subscribe = "GET"
   ∧ method (with_signature "sha1=00" verify_subscribe) = "GET"
   ∧ query verify_subscribe = query (with_signature "sha1=00" verify_subscribe))
  ∧ effects (_onRequest toy_createHmac keyed verify_subscribe)
    = effects (_onRequest (fun _ _ => None) (notifier_of None)
                 (with_signature "sha1=00" verify_subscribe))
  ∧ (error_listener keyed = error_listener (notifier_of None) →
     _onRequest toy_createHmac keyed verify_subscribe
     = _onRequest (fun _ _ => None) (notifier_of None)
         (with_signature "sha1=00" verify_subscribe)).
Proof.
  split; [repeat split; reflexivity|].
  apply (get_depends_on_query toy_createHmac (fun _ _ => None) keyed (notifier_of None)
           verify_subscribe (with_signature "sha1=00" verify_subscribe)); reflexivity.
Defined.

Lemma topic_field (self : YouTubeNotifier) (c i t : string) :
  In ("hub.topic", t) (request_data self c i) → t = base_topic +:+ c.
Proof.
  destruct (Encoding.request_data_cons self c i) as (rest & -> & Hrest).
  simpl. intros [H|[H|[H|H]]]; try discriminate H.
  - by injection H.
  - destruct Hrest as [->|[s ->]]; [done|].
    destruct H as [H|[]]. discriminate H.
Qed.

(** The channel id comes back.  When the hub calls back with the topic
    that [_makeRequest] sent for the channel id [c], once, and with
    [hub.challenge] at most once, the event carries [c] for channel,
    whatever [c] is. *)
Theorem topic_round_trip (createHmac : hmac_provider) (self : YouTubeNotifier)
    (req : request) (c i topic mode : string) :
  In ("hub.topic", topic) (request_data self c i) →
  method req = "GET" →
  query req !! "hub.topic" = Some (QStr topic) →
  query req !! "hub.mode" = Some (QStr mode) → truthy_str mode = true →
  repeated (query req !! "hub.challenge") = false →
  ∃ d, emitted (_onRequest createHmac self req) = [Emit mode (Intent d)]
       ∧ channel d = c.
Proof.
  intros Hin Hget Ht Hm Hmt Hc. apply topic_field in Hin as ->.
  rewrite (onRequest_get _ _ _ Hget).
  rewrite (Verification.onGetRequest_verified self req _ mode Ht eq_refl Hm Hmt Hc).
  eexists. split; [reflexivity|]. cbn [channel].
  rewrite Strings.replace_first_prefix. done.
Qed.

Lemma topic_round_trip_witness :
  (In ("hub.topic", base_topic +:+ "UC123") (request_data keyed "UC123" "subscribe")
   ∧ method verify_subscribe = "GET"
   ∧ query verify_subscribe !! "hub.topic" = Some (QStr (base_topic +:+ "UC123"))
   ∧ query verify_subscribe !! "hub.mode" = Some (QStr "subscribe")
   ∧ repeated (query verify_subscribe !! "hub.challenge") = false)
  ∧ ∃ d, emitted (_onRequest toy_createHmac keyed verify_subscribe)
           = [Emit "subscribe" (Intent d)]
         ∧ channel d = "UC123".
Proof.
  split; [repeat split; try reflexivity; simpl; auto|].
  apply (topic_round_trip toy_createHmac keyed verify_subscribe
           "UC123" "subscribe" (base_topic +:+ "UC123") "subscribe");
    try reflexivity; simpl; auto.
Defined.

(** The channel of the event is the topic with one occurrence of
    [base_topic] cut out, wherever in the topic it is, and the topic as
    it came when [base_topic] is nowhere in it. *)
Theorem channel_cases (createHmac : hmac_provider) (self : YouTubeNotifier)
    (req : request) (topic mode : string) :
  method req = "GET" →
  query req !! "hub.topic" = Some (QStr topic) → truthy_str topic = true →
  query req !! "hub.mode" = Some (QStr mode) → truthy_str mode = true →
  repeated (query req !! "hub.challenge") = false →
  ∃ d, emitted (_onRequest createHmac self req) = [Emit mode (Intent d)]
       ∧ ((∃ pre post, topic = pre +:+ base_topic +:+ post
                       ∧ channel d = pre +:+ post)
          ∨ ((∀ pre post, topic ≠ pre +:+ base_topic +:+ post)
             ∧ channel d = topic)).
Proof.
  intros Hget Ht Htt Hm Hmt Hc. rewrite (onRequest_get _ _ _ Hget).
  rewrite (Verification.onGetRequest_verified self req topic mode Ht Htt Hm Hmt Hc).
  eexists. split; [reflexivity|]. cbn [channel].
  destruct (Strings.replace_first_cases base_topic "" topic)
    as [(pre & post & E & ->)|[Hno ->]]; [left|right; done].
  exists pre, post. done.
Qed.

Lemma channel_cases_witness :
  (method verify_banana = "GET"
   ∧ query verify_banana !! "hub.topic" = Some (QStr (base_topic +:+ "UC123"))
   ∧ query verify_banana !! "hub.mode" = Some (QStr "banana")
   ∧ repeated (query verify_banana !! "hub.challenge") = false)
  ∧ ∃ d, emitted (_onRequest toy_createHmac keyed verify_banana)
           = [Emit "banana" (Intent d)]
         ∧ ((∃ pre post, base_topic +:+ "UC123" = pre +:+ base_topic +:+ post
                         ∧ channel d = pre +:+ post)
            ∨ ((∀ pre post, base_topic +:+ "UC123" ≠ pre +:+ base_topic +:+ post)
               ∧ channel d = base_topic +:+ "UC123")).
Proof.
  split; [repeat split; reflexivity|].
  apply (channel_cases toy_createHmac keyed verify_banana
           (base_topic +:+ "UC123") "banana"); reflexivity.
Defined.

(** The event has a [lease_seconds] field exactly when the query has a
    non-empty [hub.lease_seconds], and the field is then that value as it
    came; the mode plays no part. *)
Theorem lease_copied (createHmac : hmac_provider) (self : YouTubeNotifier)
    (req : request) (topic mode : string) :
  method req = "GET" →
  query req !! "hub.topic" = Some (QStr topic) → truthy_str topic = true →
  query req !! "hub.mode" = Some (QStr mode) → truthy_str mode = true →
  repeated (query req !! "hub.challenge") = false →
  ∃ d, emitted (_onRequest createHmac self req) = [Emit mode (Intent d)]
       ∧ (truthy_q (query req !! "hub.lease_seconds") = true →
          lease_seconds d = query req !! "hub.lease_seconds")
       ∧ (truthy_q (query req !! "hub.lease_seconds") = false →
          lease_seconds d = None).
Proof.
  intros Hget Ht Htt Hm Hmt Hc. rewrite (onRequest_get _ _ _ Hget).
  rewrite (Verification.onGetRequest_verified self req topic mode Ht Htt Hm Hmt Hc).
  eexists. split; [reflexivity|]. simpl. split; by intros ->.
Qed.

Lemma lease_copied_witness :
  (method verify_unsubscribe_lease = "GET"
   ∧ query verify_unsubscribe_lease !! "hub.topic"
     = Some (QStr (base_topic +:+ "UC123"))
   ∧ query verify_unsubscribe_lease !! "hub.mode" = Some (QStr "unsubscribe")
   ∧ repeated (query verify_unsubscribe_lease !! "hub.challenge") = false)
  ∧ ∃ d, emitted (_onRequest toy_createHmac keyed verify_unsubscribe_lease)
           = [Emit "unsubscribe" (Intent d)]
         ∧ (truthy_q (query verify_unsubscribe_lease !! "hub.lease_seconds") = true →
            lease_seconds d = query verify_unsubscribe_lease !! "hub.lease_seconds")
         ∧ (truthy_q (query verify_unsubscribe_lease !! "hub.lease_seconds") = false →
            lease_seconds d = None).
Proof.
  split; [repeat split; reflexivity|].
  apply (lease_copied toy_createHmac keyed verify_unsubscribe_lease
           (base_topic +:+ "UC123") "unsubscribe"); reflexivity.
Defined.

End Handshake.

(** ** More on notification delivery *)

Module Notification.

Lemma undefined_inv (v : jsval) : defined v = false → v = JUndef.
Proof. by destruct v. Qed.

Lemma get_spec (v : jsval) (k : string) :
  get v k = if defined v then mret (prop v k) else throw TypeError.
Proof. by destruct v. Qed.

Lemma first_spec (v : jsval) :
  first v = if defined v then mret (first_of v) else throw TypeError.
Proof. destruct v as [|[|c s]|[|x l]|props]; done. Qed.

Lemma get_first_spec (v : jsval) (k : string) :
  get v k ≫= first =
    if defined (prop v k) then mret (first_of (prop v k)) else throw TypeError.
Proof.
  rewrite get_spec. destruct v; try done; cbn [defined]; rewrite bind_ret; apply first_spec.
Qed.

(** One read of the extraction, decided by what it reads from. *)
Ltac decide_read :=
  lazymatch goal with
  | |- (get ?v ?k ≫= first) ≫= _ = _ => rewrite (get_first_spec v k)
  | |- get ?v ?k ≫= _ = _ => rewrite (get_spec v k)
  end;
  lazymatch goal with
  | |- (if defined ?v then _ else _) ≫= _ = _ =>
      let E := fresh "E" in
      destruct (defined v) eqn:E;
      [rewrite bind_ret; cbv iota; rewrite ?bind_ret
      |apply undefined_inv in E; rewrite ?E; simpl;
       rewrite ?andb_false_r; reflexivity]
  end.

(** The extraction yields the values found when each of its eight reads
    has something to read from, and raises otherwise. *)
Lemma extract_spec (entry : jsval) :
  extract entry =
    if readable entry then mret (event_of entry) else throw TypeError.
Proof.
  unfold extract, readable, event_of, link_of, author_of.
  repeat decide_read. reflexivity.
Qed.

Lemma readable_atom_entry (id title href cid name uri pub upd : string) :
  readable (atom_entry id title href cid name uri pub upd) = true
  ∧ event_of (atom_entry id title href cid name uri pub upd) = {|
      video := {| video_id := JStr id; video_title := JStr title;
                  video_link := JStr href |};
      channel_of := {| channel_id := JStr cid; channel_name := JStr name;
                       channel_link := JStr uri |};
      published := JStr pub;
      updated := JStr upd |}.
Proof. split; reflexivity. Qed.

Lemma onPost_no_feed (createHmac : hmac_provider) (self : YouTubeNotifier)
    (req : request) :
  header_missing self req = false → feed_of req = JUndef →
  _onPostRequest createHmac self req = Comp [] (inl TypeError).
Proof.
  unfold header_missing, signature_header, _onPostRequest, feed_of. intros -> Hf.
  rewrite get_spec. destruct (defined (body req)); [|done].
  rewrite bind_ret, Hf. done.
Qed.

(** With a secret and a header that the first test let through, a
    signature that fails the check is answered 403 or 200. *)
Lemma match_secret_rejects (createHmac : hmac_provider) (self : YouTubeNotifier)
    (req : request) (key : string) (rest : comp unit) :
  secret self = Some key → truthy_str key = true →
  header_missing self req = false →
  signature_ok createHmac self req = false →
  match_secret createHmac key req rest = Comp [SendStatus 403] (inr ())
  ∨ match_secret createHmac key req rest = Comp [SendStatus 200] (inr ()).
Proof.
  unfold header_missing, signature_ok, match_secret, signature_header.
  intros -> Hk. simpl. rewrite Hk. simpl.
  destruct (headers req !! "x-hub-signature") as [header|]; [|done]. simpl.
  intros Hh. apply negb_false_iff in Hh. rewrite Hh. simpl.
  destruct (createHmac (header_algo header) key) as [hmac|]; [|by left].
  intros ->. by right.
Qed.

(** The ways a delivery can go. *)
Lemma onPost_cases (createHmac : hmac_provider) (self : YouTubeNotifier)
    (req : request) :
  _onPostRequest createHmac self req = Comp [SendStatus 403] (inr ())
  ∨ _onPostRequest createHmac self req = Comp [SendStatus 200] (inr ())
  ∨ _onPostRequest createHmac self req =
      Comp [StatusEnd 400 "text/plain" (Some "Bad Request")] (inr ())
  ∨ _onPostRequest createHmac self req = Comp [] (inl TypeError)
  ∨ (passes_checks createHmac self req = true
     ∧ readable (entry_of req) = true
     ∧ _onPostRequest createHmac self req =
         Comp [Emit "notified" (Notified (event_of (entry_of req))); SendStatus 200]
              (inr ())).
Proof.
  destruct (header_missing self req) eqn:Hm.
  { left. by apply Delivery.onPost_header_missing. }
  destruct (defined (feed_of req)) eqn:Hf.
  2:{ do 3 right. left. apply onPost_no_feed; [done|]. by apply undefined_inv. }
  assert (feed_of req ≠ JUndef) as Hfeed by (by intros E; rewrite E in Hf).
  destruct (truthy (deleted_entry_of req)) eqn:Hd.
  { right. left. by apply Delivery.onPost_deleted. }
  destruct (truthy (entries_of req)) eqn:He.
  2:{ do 2 right. left. by apply Delivery.onPost_no_entry. }
  destruct (signature_ok createHmac self req) eqn:Hs.
  - assert (passes_checks createHmac self req = true) as Hp.
    { unfold passes_checks. by rewrite Hd, He, Hs. }
    rewrite (Delivery.passes_checks_inv _ _ _ Hp). unfold notify.
    rewrite extract_spec. destruct (readable (entry_of req)).
    + do 4 right. rewrite bind_ret. done.
    + do 3 right. by left.
  - rewrite (Delivery.onPost_entry createHmac self req Hm Hd He).
    destruct (secret self) as [key|] eqn:Hk; simpl.
    + destruct (truthy_str key) eqn:Hkt.
      * destruct (match_secret_rejects createHmac self req key
                    (notify self (entry_of req)) Hk Hkt Hm Hs) as [->| ->]; auto.
      * unfold signature_ok in Hs. rewrite Hk, Hkt in Hs. done.
    + unfold signature_ok in Hs. rewrite Hk in Hs. done.
Qed.

(** *** What every request gets *)

(** One of the facts about a run that is known effect by effect. *)
Ltac settle :=
  compute;
  first
    [ lia
    | repeat (apply Forall_cons || apply Forall_nil); auto; fail
    | done
    | let H := fresh in intros H; exfalso; apply H; reflexivity
    | let e := fresh in intros e [= <-]; auto; fail ].

(** Whatever the request, the handler sends at most one response, with
    status 200, 400 or 403, and calls [emit] at most once, and then only
    beside a 200.  When it returns it has sent exactly one response.  When
    it raises, it raises a [TypeError] or what [emit] throws for an
    "error" event that nobody listens to. *)
Theorem handler_outcomes (createHmac : hmac_provider) (self : YouTubeNotifier)
    (req : request) :
  (length (responses (_onRequest createHmac self req)) ≤ 1)%nat
  ∧ Forall (fun st => st = 200%Z ∨ st = 400%Z ∨ st = 403%Z)
      (responses (_onRequest createHmac self req))
  ∧ (length (emitted (_onRequest createHmac self req)) ≤ 1)%nat
  ∧ (emitted (_onRequest createHmac self req) ≠ [] →
     responses (_onRequest createHmac self req) = [200%Z])
  ∧ (outcome (_onRequest createHmac self req) = inr () →
     length (responses (_onRequest createHmac self req)) = 1)
  ∧ (∀ e, outcome (_onRequest createHmac self req) = inl e →
          e = TypeError ∨ e = UnhandledError).
Proof.
  destruct (String.eqb (method req) "GET") eqn:Hg.
  - apply String.eqb_eq in Hg.
    destruct (Handshake.get_outcomes createHmac self req Hg)
      as [[_ ->]|[(_ & _ & ->)|[(_ & _ & _ & ->)|(_ & _ & _ & name & d & _ & ->)]]];
      try destruct (unheard self name); repeat split; settle.
  - unfold _onRequest. rewrite Hg. destruct (String.eqb (method req) "POST").
    + destruct (onPost_cases createHmac self req)
        as [->|[->|[->|[->|(_ & _ & ->)]]]]; repeat split; settle.
    + repeat split; settle.
Qed.

(** With a secret configured, a POST request makes the handler emit
    only if its signature header names an algorithm the provider knows
    and carries the digest of the raw body under the secret. *)
Theorem event_needs_signature (createHmac : hmac_provider) (self : YouTubeNotifier)
    (req : request) (key : string) :
  method req = "POST" →
  secret self = Some key → truthy_str key = true →
  emitted (_onRequest createHmac self req) ≠ [] →
  ∃ header hmac,
    signature_header req = Some header
    ∧ createHmac (header_algo header) key = Some hmac
    ∧ toLowerCase (hmac (rawBody req)) = header_signature header.
Proof.
  intros Hpost Hk Hkt. rewrite (Delivery.onRequest_post _ _ _ Hpost).
  destruct (onPost_cases createHmac self req)
    as [->|[->|[->|[->|(Hp & _ & _)]]]];
    try (intros H; exfalso; apply H; reflexivity).
  intros _. unfold passes_checks in Hp.
  apply andb_prop in Hp as [_ Hs]. unfold signature_ok in Hs.
  rewrite Hk, Hkt in Hs.
  destruct (signature_header req) as [header|]; [|done].
  apply andb_prop in Hs as [_ Hs].
  destruct (createHmac (header_algo header) key) as [hmac|] eqn:Hc; [|done].
  apply String.eqb_eq in Hs. by exists header, hmac.
Qed.

Lemma event_needs_signature_witness :
  (method post_two_entries = "POST"
   ∧ secret keyed = Some "s3cret"
   ∧ emitted (_onRequest toy_createHmac keyed post_two_entries) ≠ [])
  ∧ ∃ header hmac,
      signature_header post_two_entries = Some header
      ∧ toy_createHmac (header_algo header) "s3cret" = Some hmac
      ∧ toLowerCase (hmac (rawBody post_two_entries)) = header_signature header.
Proof.
  split; [repeat split; try reflexivity; discriminate|].
  apply (event_needs_signature toy_createHmac keyed post_two_entries "s3cret");
    try reflexivity; discriminate.
Defined.

(** A request that passes the checks is answered from the first entry
    alone, whatever entries follow it: when each of the eight reads has
    something to read from, the handler emits "notified" with the values
    found, as they are, and then answers 200; otherwise it raises. *)
Theorem delivery_of_first_entry (createHmac : hmac_provider)
    (self : YouTubeNotifier) (req : request) (entry : jsval) (others : list jsval) :
  method req = "POST" →
  passes_checks createHmac self req = true →
  entries_of req = JArr (entry :: others) →
  _onRequest createHmac self req =
    if readable entry
    then Comp [Emit "notified" (Notified (event_of entry)); SendStatus 200] (inr ())
    else Comp [] (inl TypeError).
Proof.
  intros Hpost Hp He. rewrite (Delivery.onRequest_post _ _ _ Hpost).
  rewrite (Delivery.passes_checks_inv _ _ _ Hp). unfold notify, entry_of.
  rewrite He. cbn [first_of]. rewrite extract_spec.
  destruct (readable entry); [|done]. by rewrite bind_ret.
Qed.

Lemma delivery_of_first_entry_witness :
  (method post_title_only = "POST"
   ∧ passes_checks toy_createHmac (notifier_of None) post_title_only = true
   ∧ entries_of post_title_only = JArr [entry_title_only])
  ∧ _onRequest toy_createHmac (notifier_of None) post_title_only
    = Comp [] (inl TypeError).
Proof.
  split; [repeat split; reflexivity|].
  apply (delivery_of_first_entry toy_createHmac (notifier_of None) post_title_only
           entry_title_only []); reflexivity.
Defined.

(** A signed delivery of an entry of the feed's shape: one "notified"
    event whose eight fields are the strings of the entry, then a 200. *)
Theorem delivery_of_atom_entry (createHmac : hmac_provider)
    (self : YouTubeNotifier) (req : request)
    (id title href cid name uri pub upd : string) (others : list jsval) :
  method req = "POST" →
  passes_checks createHmac self req = true →
  entries_of req = JArr (atom_entry id title href cid name uri pub upd :: others) →
  _onRequest createHmac self req =
    Comp [Emit "notified" (Notified {|
            video := {| video_id := JStr id; video_title := JStr title;
                        video_link := JStr href |};
            channel_of := {| channel_id := JStr cid; channel_name := JStr name;
                             channel_link := JStr uri |};
            published := JStr pub;
            updated := JStr upd |});
          SendStatus 200] (inr ()).
Proof.
  intros Hpost Hp He.
  rewrite (delivery_of_first_entry createHmac self req _ others Hpost Hp He).
  by destruct (readable_atom_entry id title href cid name uri pub upd) as [-> ->].
Qed.

Lemma delivery_of_atom_entry_witness :
  (method post_two_entries = "POST"
   ∧ passes_checks toy_createHmac keyed post_two_entries = true)
  ∧ _onRequest toy_createHmac keyed post_two_entries =
      Comp [Emit "notified" (Notified {|
              video := {| video_id := JStr "VID1"; video_title := JStr "A video";
                          video_link := JStr "https://www.youtube.com/watch?v=VID1" |};
              channel_of := {| channel_id := JStr "UC123";
                               channel_name := JStr "A channel";
                               channel_link := JStr "https://www.youtube.com/channel/UC123" |};
              published := JStr "2015-03-06T21:40:57+00:00";
              updated := JStr "2015-03-09T19:05:24+00:00" |});
            SendStatus 200] (inr ()).
Proof.
  split; [split; reflexivity|].
  apply (delivery_of_atom_entry toy_createHmac keyed post_two_entries
           "VID1" "A video" "https://www.youtube.com/watch?v=VID1"
           "UC123" "A channel" "https://www.youtube.com/channel/UC123"
           "2015-03-06T21:40:57+00:00" "2015-03-09T19:05:24+00:00"
           [entry_title_only]); reflexivity.
Defined.

(** With a secret configured, a POST request without a signature header,
    or with an empty one, is answered 403 before the body is looked at:
    so also when the body is no feed at all. *)
Theorem unsigned_forbidden (createHmac : hmac_provider) (self : YouTubeNotifier)
    (req : request) :
  method req = "POST" →
  truthy_opt (secret self) = true →
  truthy_opt (signature_header req) = false →
  _onRequest createHmac self req = Comp [SendStatus 403] (inr ()).
Proof.
  intros Hpost Hs Hh. rewrite (Delivery.onRequest_post _ _ _ Hpost).
  apply Delivery.onPost_header_missing. unfold header_missing. by rewrite Hs, Hh.
Qed.

Lemma unsigned_forbidden_witness :
  (method post_not_a_feed = "POST"
   ∧ truthy_opt (secret keyed) = true
   ∧ truthy_opt (signature_header post_not_a_feed) = false)
  ∧ _onRequest toy_createHmac keyed post_not_a_feed = Comp [SendStatus 403] (inr ()).
Proof.
  split; [repeat split; reflexivity|].
  apply (unsigned_forbidden toy_createHmac keyed post_not_a_feed); reflexivity.
Defined.

(** A POST request that gets past the first test with a body that has no
    [feed] makes the handler raise: it sends no response. *)
Theorem no_feed_raises (createHmac : hmac_provider) (self : YouTubeNotifier)
    (req : request) :
  method req = "POST" →
  header_missing self req = false →
  feed_of req = JUndef →
  _onRequest createHmac self req = Comp [] (inl TypeError).
Proof.
  intros Hpost Hm Hf. rewrite (Delivery.onRequest_post _ _ _ Hpost).
  by apply onPost_no_feed.
Qed.

Lemma no_feed_raises_witness :
  (method post_not_a_feed = "POST"
   ∧ header_missing (notifier_of None) post_not_a_feed = false
   ∧ feed_of post_not_a_feed = JUndef)
  ∧ _onRequest toy_createHmac (notifier_of None) post_not_a_feed
    = Comp [] (inl TypeError).
Proof.
  split; [repeat split; reflexivity|].
  apply (no_feed_raises toy_createHmac (notifier_of None) post_not_a_feed); reflexivity.
Defined.

(** Without a secret nothing is checked: the answer to a POST request
    depends on its parsed body alone, not on its headers, its raw body or
    the provider. *)
Theorem no_secret_no_check (c1 c2 : hmac_provider) (self1 self2 : YouTubeNotifier)
    (req1 req2 : request) :
  method req1 = "POST" → method req2 = "POST" →
  truthy_opt (secret self1) = false → truthy_opt (secret self2) = false →
  body req1 = body req2 →
  _onRequest c1 self1 req1 = _onRequest c2 self2 req2.
Proof.
  intros H1 H2 Hs1 Hs2 Hb.
  rewrite (Delivery.onRequest_post _ _ _ H1), (Delivery.onRequest_post _ _ _ H2).
  unfold _onPostRequest. by rewrite Hs1, Hs2, Hb.
Qed.

Lemma no_secret_no_check_witness :
  (method post_title_only = "POST"
   ∧ method (with_signature "md99=zz" post_title_only) = "POST"
   ∧ body post_title_only = body (with_signature "md99=zz" post_title_only))
  ∧ _onRequest toy_createHmac (notifier_of None) post_title_only
    = _onRequest (fun _ _ => None) (notifier_of (Some ""))
        (with_signature "md99=zz" post_title_only).
Proof.
  split; [repeat split; reflexivity|].
  apply (no_secret_no_check toy_createHmac (fun _ _ => None)
           (notifier_of None) (notifier_of (Some ""))
           post_title_only (with_signature "md99=zz" post_title_only)); reflexivity.
Defined.

End Notification.

(** ** The signature header *)

Module SignatureHeader.

Local Arguments String.append : simpl nomatch.

Lemma split_on_sep_app (sep : ascii) (a b : string) :
  split_on sep (a +:+ String sep b) = (split_on sep a ++ split_on sep b)%list.
Proof.
  induction a as [|c a IH]; simpl.
  - by rewrite Ascii.eqb_refl.
  - destruct (Ascii.eqb c sep); rewrite IH; [done|].
    destruct (Strings.split_on_cons sep a) as (x & xs & ->). done.
Qed.

Lemma last_map {A B : Type} (f : A -> B) (l : list A) :
  last (map f l) = option_map f (last l).
Proof.
  induction l as [|x [|y l] IH]; [done..|]. exact IH.
Qed.

Lemma or_default_empty (x : string) : or_default (Some x) "" = x.
Proof. by destruct x. Qed.

Lemma or_default_lower (o : option string) :
  or_default (option_map toLowerCase o) "" = toLowerCase (or_default o "").
Proof. destruct o as [[|c s]|]; done. Qed.

Lemma header_algo_lower (h : string) : header_algo (toLowerCase h) = header_algo h.
Proof.
  unfold header_algo. rewrite Strings.split_on_lower.
  destruct (Strings.split_on_cons "=" h) as (x & xs & ->). cbn [map head].
  by rewrite !or_default_empty, Strings.toLowerCase_idem.
Qed.

Lemma header_signature_lower (h : string) :
  header_signature (toLowerCase h) = header_signature h.
Proof.
  unfold header_signature. rewrite Strings.split_on_lower.
  destruct (Strings.split_on_cons "=" h) as (x & xs & ->). cbn [map tail].
  by rewrite last_map, or_default_lower, Strings.toLowerCase_idem.
Qed.

(** How the header is cut.  The algorithm is what precedes the first
    [=], the signature what follows the last one, both in lower case; a
    header without [=] is all algorithm and has the empty signature. *)
Theorem header_parts (algo middle sig : string) :
  has_char "=" algo = false → has_char "=" sig = false →
  header_algo (algo +:+ "=" +:+ middle) = toLowerCase algo
  ∧ header_signature (middle +:+ "=" +:+ sig) = toLowerCase sig
  ∧ header_algo algo = toLowerCase algo
  ∧ header_signature algo = "".
Proof.
  intros Ha Hs. unfold header_algo, header_signature.
  change ("=" +:+ middle) with (String "=" middle).
  change ("=" +:+ sig) with (String "=" sig).
  rewrite !split_on_sep_app, (Strings.split_on_none "=" _ Ha),
    (Strings.split_on_none "=" _ Hs).
  destruct (Strings.split_on_cons "=" middle) as (x & xs & ->).
  cbn [app head tail]. rewrite last_snoc. by rewrite !or_default_empty.
Qed.

Lemma header_parts_witness :
  (has_char "=" "SHA1" = false ∧ has_char "=" "C0FFEE" = false)
  ∧ header_algo ("SHA1" +:+ "=" +:+ "ab=cd") = toLowerCase "SHA1"
  ∧ header_signature ("ab=cd" +:+ "=" +:+ "C0FFEE") = toLowerCase "C0FFEE"
  ∧ header_algo "SHA1" = toLowerCase "SHA1"
  ∧ header_signature "SHA1" = "".
Proof.
  split; [split; reflexivity|].
  apply (header_parts "SHA1" "ab=cd" "C0FFEE"); reflexivity.
Defined.

(** The letter case of the signature header does not matter: two POST
    requests that differ only in the case of the letters of that header
    are answered alike. *)
Theorem header_case_insensitive (createHmac : hmac_provider)
    (self : YouTubeNotifier) (req : request) (h1 h2 : string) :
  method req = "POST" →
  toLowerCase h1 = toLowerCase h2 →
  _onRequest createHmac self (with_signature h1 req)
  = _onRequest createHmac self (with_signature h2 req).
Proof.
  intros Hpost Hl. unfold _onRequest, with_signature. simpl. rewrite Hpost. simpl.
  unfold _onPostRequest, match_secret. simpl. rewrite !lookup_insert_eq. simpl.
  rewrite <- (Strings.truthy_lower h1), <- (Strings.truthy_lower h2).
  rewrite <- (header_algo_lower h1), <- (header_algo_lower h2).
  rewrite <- (header_signature_lower h1), <- (header_signature_lower h2).
  by rewrite Hl.
Qed.

Lemma header_case_insensitive_witness :
  (method post_two_entries = "POST"
   ∧ toLowerCase "SHA1=C0FFEE" = toLowerCase "sha1=c0ffee")
  ∧ _onRequest toy_createHmac keyed (with_signature "SHA1=C0FFEE" post_two_entries)
    = _onRequest toy_createHmac keyed (with_signature "sha1=c0ffee" post_two_entries).
Proof.
  split; [split; reflexivity|].
  apply (header_case_insensitive toy_createHmac keyed post_two_entries
           "SHA1=C0FFEE" "sha1=c0ffee"); reflexivity.
Defined.

End SignatureHeader.
